(** * ChainGuard front end: risk bands, graph rendering and lookup handlers

    A shallow embedding of the algorithmic parts of the three Next.js pages
    of the dashboard (the landing page, the predict page and the
    transaction page), together with the properties of the risk fusion and
    graph engine design that they implement. *)

From Stdlib Require Import List String Ascii Bool ZArith QArith Qround Qabs.
From Stdlib Require Import Lia Lqa.
Import ListNotations.

Local Open Scope string_scope.

(** ** JavaScript values *)

Module JS.

(** A JavaScript [number].  Every finite double is a rational and the
    comparisons of IEEE 754 on finite doubles are the comparisons of
    their values, so a finite number is carried as its value in [Q]
    (plus and minus zero are both [Fin 0], which [>=] and [===] cannot
    tell apart either). *)
Inductive number : Type :=
| NaN
| NegInf
| Fin (q : Q)
| PosInf.

Definition of_Z (z : Z) : number := Fin (inject_Z z).

(** [a >= b] on numbers: false as soon as one side is [NaN]. *)
Definition ge (a b : number) : bool :=
  match a, b with
  | NaN, _ | _, NaN => false
  | PosInf, _ => true
  | _, NegInf => true
  | NegInf, _ => false
  | _, PosInf => false
  | Fin x, Fin y => Qle_bool y x
  end.

(** [a === b] on numbers. *)
Definition strict_eq (a b : number) : bool :=
  match a, b with
  | NaN, _ | _, NaN => false
  | PosInf, PosInf => true
  | NegInf, NegInf => true
  | Fin x, Fin y => Qeq_bool x y
  | _, _ => false
  end.

(** ToBoolean on a number: [NaN] and the zeros are falsy. *)
Definition truthy (a : number) : bool :=
  match a with
  | NaN => false
  | Fin q => negb (Qeq_bool q 0)
  | NegInf | PosInf => true
  end.

(** The order of the extended reals, as a proposition; [NaN] is related
    to nothing. *)
Inductive le : number -> number -> Prop :=
| le_fin x y : (x <= y)%Q -> le (Fin x) (Fin y)
| le_neg_inf b : b <> NaN -> le NegInf b
| le_pos_inf a : a <> NaN -> le a PosInf.

Inductive lt : number -> number -> Prop :=
| lt_fin x y : (x < y)%Q -> lt (Fin x) (Fin y)
| lt_neg_fin y : lt NegInf (Fin y)
| lt_fin_pos x : lt (Fin x) PosInf
| lt_neg_pos : lt NegInf PosInf.

(** [String.prototype.substring] on a string held as the list of its
    code units: both indices are clamped to [0, length] and swapped when
    they come in the wrong order; a missing end is the length. *)
Definition substring {A : Type} (s : list A) (start : Z) (end_ : option Z)
  : list A :=
  let len := Z.of_nat (List.length s) in
  let intEnd := match end_ with Some e => e | None => len end in
  let finalStart := Z.min (Z.max start 0) len in
  let finalEnd := Z.min (Z.max intEnd 0) len in
  let from := Z.min finalStart finalEnd in
  let to := Z.max finalStart finalEnd in
  firstn (Z.to_nat (to - from)) (skipn (Z.to_nat from) s).

(** A string whose characters are counted, as [length] and [substring]
    count them, one list element per code unit. *)
Definition str : Type := list ascii.

Definition str_of (s : string) : str := list_ascii_of_string s.

(** [a ?? b], a missing or null operand being [None]. *)
Definition nullish {A : Type} (a b : option A) : option A :=
  match a with Some _ => a | None => b end.

(** What a template or a JSX slot renders for a number: the text of
    [v.toFixed(digits)], kept as the call itself, or a literal. *)
Inductive text : Type :=
| Literal (s : string)
| ToFixed (v : number) (digits : Z).

(** [Array.prototype.slice(start, end)]: a negative index counts from the
    end, both are clamped to [0, length], and nothing is taken when the end
    is not after the start. *)
Definition slice {A : Type} (l : list A) (start end_ : Z) : list A :=
  let len := Z.of_nat (List.length l) in
  let k := if (start <? 0)%Z then Z.max (len + start) 0 else Z.min start len in
  let final := if (end_ <? 0)%Z then Z.max (len + end_) 0 else Z.min end_ len in
  let count := Z.max (final - k) 0 in
  firstn (Z.to_nat count) (skipn (Z.to_nat k) l).

(** What a percentage slot renders: the text of [(p * 100).toFixed(1)],
    kept as the call itself, or the dash. *)
Inductive percent : Type :=
| NoPercent
| Times100 (p : number).

(** A coordinate of a node: a number, or the starting value
    [Math.cos(angle) * radius] or [Math.sin(angle) * radius] for
    [angle = (index / length) * 2 * Math.PI], kept as the call itself. *)
Inductive coordinate : Type :=
| Num (v : number)
| CosTimes (index length : nat) (radius : number)
| SinTimes (index length : nat) (radius : number).

Section Doubles.

(** The arithmetic of doubles: an operation on finite numbers is the exact
    operation followed by the rounding to a double, which overflows to an
    infinity, and [Math.cos] and [Math.sin] are the approximations of the
    engine.  The sign of a zero is not kept: a division by zero takes the
    zero as positive. *)
Variable round : Q -> number.
Variables Math_cos Math_sin : number -> number.

Definition of_nat (n : nat) : number := Fin (inject_Z (Z.of_nat n)).

Definition negative (q : Q) : bool := negb (Qle_bool 0 q).

Definition infinity (neg : bool) : number := if neg then NegInf else PosInf.

Definition opposite (a : number) : number :=
  match a with
  | NaN => NaN
  | NegInf => PosInf
  | PosInf => NegInf
  | Fin q => Fin (- q)
  end.

(** [a * b]. *)
Definition mul (a b : number) : number :=
  match a, b with
  | NaN, _ | _, NaN => NaN
  | Fin x, Fin y => round (x * y)
  | Fin x, PosInf | PosInf, Fin x =>
      if Qeq_bool x 0 then NaN else infinity (negative x)
  | Fin x, NegInf | NegInf, Fin x =>
      if Qeq_bool x 0 then NaN else infinity (negb (negative x))
  | PosInf, PosInf | NegInf, NegInf => PosInf
  | PosInf, NegInf | NegInf, PosInf => NegInf
  end.

(** [a / b]. *)
Definition div (a b : number) : number :=
  match a, b with
  | NaN, _ | _, NaN => NaN
  | Fin x, Fin y =>
      if Qeq_bool y 0
      then if Qeq_bool x 0 then NaN else infinity (negative x)
      else round (x / y)
  | Fin _, PosInf | Fin _, NegInf => Fin 0
  | PosInf, Fin y => infinity (negative y)
  | NegInf, Fin y => infinity (negb (negative y))
  | _, _ => NaN
  end.

(** [Math.PI], the double next to pi. *)
Definition Math_PI : number := Fin (884279719003555 # 281474976710656).

(** [(index / length) * 2 * Math.PI]. *)
Definition angle (index length : nat) : number :=
  mul (mul (div (of_nat index) (of_nat length)) (of_Z 2)) Math_PI.

(** The number a coordinate stands for. *)
Definition evaluate (c : coordinate) : number :=
  match c with
  | Num v => v
  | CosTimes index length radius => mul (Math_cos (angle index length)) radius
  | SinTimes index length radius => mul (Math_sin (angle index length)) radius
  end.

End Doubles.

(** A value as it comes out of [JSON.parse] or of a missing property. *)
Inductive value : Type :=
| VUndefined
| VNull
| VBool (b : bool)
| VNum (n : number)
| VStr (s : string).

(** [v === true] and [v === n] for a number [n]: no coercion. *)
Definition is_true (v : value) : bool :=
  match v with VBool true => true | _ => false end.

Definition is_num (v : value) (n : number) : bool :=
  match v with VNum m => strict_eq m n | _ => false end.

End JS.

Abbreviation number := JS.number.

(** ** Code that updates a state and may throw *)

Section Effects.

Context {S E : Type}.

(** A computation from a state to the state it leaves behind and either
    the exception it threw or its result. *)
Definition Eff (A : Type) : Type := S -> S * (E + A).

Definition ret {A} (a : A) : Eff A := fun st => (st, inr a).
Definition throw {A} (e : E) : Eff A := fun st => (st, inl e).
Definition bind {A B} (m : Eff A) (k : A -> Eff B) : Eff B :=
  fun st =>
    match m st with
    | (st', inr a) => k a st'
    | (st', inl e) => (st', inl e)
    end.
Definition modify (f : S -> S) : Eff unit := fun st => (f st, inr tt).
Definition gets {A} (f : S -> A) : Eff A := fun st => (st, inr (f st)).

(** [try { body } catch { handler }]. *)
Definition try_catch (body : Eff unit) (handler : E -> Eff unit) : Eff unit :=
  fun st =>
    match body st with
    | (st', inr tt) => (st', inr tt)
    | (st', inl e) => handler e st'
    end.

(** [try { body } finally { cleanup }]: the cleanup runs on both exits
    and an exception of the body goes on after it. *)
Definition try_finally (body : Eff unit) (cleanup : Eff unit) : Eff unit :=
  fun st =>
    match body st with
    | (st', inr tt) => cleanup st'
    | (st', inl e) => bind cleanup (fun _ => throw e) st'
    end.

(** [array.forEach((a, index) => f a index)]: an exception of the
    callback ends the loop. *)
Fixpoint forEach_from {A} (f : A -> nat -> Eff unit) (index : nat)
    (l : list A) : Eff unit :=
  match l with
  | [] => ret tt
  | a :: rest => bind (f a index) (fun _ => forEach_from f (Datatypes.S index) rest)
  end.

Definition forEach {A} (f : A -> nat -> Eff unit) (l : list A) : Eff unit :=
  forEach_from f 0 l.

End Effects.

Arguments Eff : clear implicits.

Declare Scope eff_scope.
Delimit Scope eff_scope with eff.
Notation "x <- m ;; k" := (bind m (fun x => k))
  (at level 61, m at next level, right associativity) : eff_scope.
Notation "m ;; k" := (bind m (fun _ => k))
  (at level 61, right associativity) : eff_scope.

(** ** Risk bands (landing page and predict page) *)

Module Band.
Record t : Type := { label : string; color : string }.
End Band.

Module Home.

(** [riskBand] of [frontend/app/page.tsx]. *)
Definition riskBand (score : number) : Band.t :=
  if JS.ge score (JS.of_Z 80)
  then {| Band.label := "Critical"; Band.color := "bg-red-600" |}
  else if JS.ge score (JS.of_Z 60)
  then {| Band.label := "High"; Band.color := "bg-orange-500" |}
  else if JS.ge score (JS.of_Z 40)
  then {| Band.label := "Medium"; Band.color := "bg-yellow-500" |}
  else {| Band.label := "Low"; Band.color := "bg-green-600" |}.

(** A row of [/top/50]; [secure_id] is held as the text [String] makes of
    it. *)
Record RiskRow : Type := {
  secure_id : JS.str;
  risk_score : number;
  fraud_prob : number;
  gnn_fraud_prob : number;
  anomaly_score_norm : option number;
  anomaly_score : option number;
  alert : string
}.

(** The [useState] cells of the component. *)
Record State : Type := {
  topRisk : list RiskRow;
  loading : bool;
  error : string;
  searchId : string;
  currentPage : Z
}.

Definition initial : State :=
  {| topRisk := []; loading := true; error := ""; searchId := "";
     currentPage := 1 |}.

Definition setTopRisk (v : list RiskRow) (st : State) : State :=
  {| topRisk := v; loading := loading st; error := error st;
     searchId := searchId st; currentPage := currentPage st |}.
Definition setLoading (v : bool) (st : State) : State :=
  {| topRisk := topRisk st; loading := v; error := error st;
     searchId := searchId st; currentPage := currentPage st |}.
Definition setError (v : string) (st : State) : State :=
  {| topRisk := topRisk st; loading := loading st; error := v;
     searchId := searchId st; currentPage := currentPage st |}.
Definition setCurrentPage (v : Z) (st : State) : State :=
  {| topRisk := topRisk st; loading := loading st; error := error st;
     searchId := searchId st; currentPage := v |}.

(** The outcome of the request for the top rows. *)
Inductive Body : Type :=
| Malformed
| Parsed (data : list RiskRow).

Record Response : Type := { ok : bool; body : Body }.

Inductive FetchOutcome : Type :=
| Rejected
| Resolved (res : Response).

Inductive Exn : Type :=
| TypeError
| SyntaxError
| Error (message : string).

Definition load_error_message : string :=
  "Could not load top risky transactions. Backend running?".

(** [loadTop], the effect of the mount. *)
Definition loadTop (outcome : FetchOutcome) : Eff State Exn unit :=
  (try_finally
     (try_catch
        (res <- match outcome with
                | Rejected => throw TypeError
                | Resolved res => ret res
                end ;;
         (if negb (ok res) then throw (Error "Backend error") else ret tt) ;;
         data <- match body res with
                 | Malformed => throw SyntaxError
                 | Parsed data => ret data
                 end ;;
         modify (setTopRisk data) ;;
         modify (setError ""))
        (fun _ => modify (setError load_error_message)))
     (modify (setLoading false)))%eff.

(** The table is rendered under [!loading && !error]. *)
Definition tableShown (st : State) : bool :=
  negb (loading st) && String.eqb (error st) "".

(** The pagination helpers. *)
Definition itemsPerPage : Z := 10.

Definition totalPages (topRisk : list RiskRow) : Z :=
  Qceiling (inject_Z (Z.of_nat (List.length topRisk)) / inject_Z itemsPerPage).

Definition startIndex (currentPage : Z) : Z := (currentPage - 1) * itemsPerPage.

Definition endIndex (currentPage : Z) : Z := startIndex currentPage + itemsPerPage.

Definition currentData (topRisk : list RiskRow) (currentPage : Z) : list RiskRow :=
  JS.slice topRisk (startIndex currentPage) (endIndex currentPage).

(** [goToPage]: the page is brought into 1 .. [totalPages], 1 winning. *)
Definition goToPage (page : Z) (st : State) : State :=
  let pageNum := Z.max 1 (Z.min page (totalPages (topRisk st))) in
  setCurrentPage pageNum st.

(** The identifier cell of a row:
    [String(row.secure_id)?.substring(0, 10)] and the dots after it. *)
Definition rowIdText (row : RiskRow) : JS.str :=
  (JS.substring (secure_id row) 0 (Some 10%Z) ++ JS.str_of "...")%list.

End Home.

(** ** The predict page *)

Module PredictPage.

Record TxResult : Type := {
  secure_id : string;
  fraud_prob : number;
  gnn_fraud_prob : number;
  anomaly_score : option number;
  anomaly_score_norm : option number;
  risk_score : number;
  alert : string
}.

(** The four [useState] cells of the component. *)
Record State : Type := {
  txId : string;
  result : option TxResult;
  loading : bool;
  error : string
}.

Definition setResult (v : option TxResult) (st : State) : State :=
  {| txId := txId st; result := v; loading := loading st; error := error st |}.
Definition setLoading (v : bool) (st : State) : State :=
  {| txId := txId st; result := result st; loading := v; error := error st |}.
Definition setError (v : string) (st : State) : State :=
  {| txId := txId st; result := result st; loading := loading st; error := v |}.

(** What [fetch] and [res.json()] can do: the promise of [fetch] rejects
    or resolves to a response with its [ok] flag, and the body of a
    response makes [json()] reject or parses to a value of the type of the
    result cell, a record or [null]. *)
Inductive Body : Type :=
| Malformed
| Parsed (data : TxResult)
| ParsedNull.

Record Response : Type := { ok : bool; body : Body }.

Inductive FetchOutcome : Type :=
| Rejected
| Resolved (res : Response).

Inductive Exn : Type :=
| TypeError
| SyntaxError
| Error (message : string).

(** A handler threads the component state and may throw. *)
Definition Handler (A : Type) : Type := Eff State Exn A.

Definition not_found_message : string :=
  "❌ Transaction not found in ML database".

Section Handlers.

(** [String.prototype.trim], and the network as the outcome it gives
    for a URL. *)
Variable trim : string -> string.
Variable network : string -> FetchOutcome.

Definition fetch (url : string) : Handler Response :=
  match network url with
  | Rejected => throw TypeError
  | Resolved res => ret res
  end.

Definition json (res : Response) : Handler (option TxResult) :=
  match body res with
  | Malformed => throw SyntaxError
  | Parsed data => ret (Some data)
  | ParsedNull => ret None
  end.

Definition handleSubmit : Handler unit :=
  fun st =>
    if String.eqb (trim (txId st)) "" then ret tt st
    else
      (modify (setLoading true) ;;
       modify (setError "") ;;
       modify (setResult None) ;;
       try_finally
         (try_catch
            (res <- fetch ("http://127.0.0.1:8000/tx/" ++ trim (txId st)) ;;
             (if negb (ok res) then throw (Error "Not found") else ret tt) ;;
             data <- json res ;;
             modify (setResult data))
            (fun _ => modify (setError not_found_message)))
         (modify (setLoading false)))%eff st.

End Handlers.

(** [riskBand] of the predict page. *)
Definition riskBand (score : number) : Band.t :=
  if JS.ge score (JS.of_Z 80)
  then {| Band.label := "Critical"; Band.color := "bg-red-600" |}
  else if JS.ge score (JS.of_Z 60)
  then {| Band.label := "High"; Band.color := "bg-orange-500" |}
  else if JS.ge score (JS.of_Z 40)
  then {| Band.label := "Medium"; Band.color := "bg-yellow-500" |}
  else {| Band.label := "Low"; Band.color := "bg-green-600" |}.

(** [getTruncatedId]. *)
Definition getTruncatedId (secureId : JS.str) : JS.str :=
  let len := Z.of_nat (List.length secureId) in
  if (len <=? 16)%Z then secureId
  else (JS.substring secureId 0 (Some 8%Z) ++ JS.str_of "..."
        ++ JS.substring secureId (len - 8) None)%list.

(** The anomaly card:
    [(result.anomaly_score_norm ?? result.anomaly_score)?.toFixed(3) ?? "—"]. *)
Definition anomalyText (r : TxResult) : JS.text :=
  match JS.nullish (anomaly_score_norm r) (anomaly_score r) with
  | Some v => JS.ToFixed v 3
  | None => JS.Literal "—"
  end.

(** The two probability cards: [(result.fraud_prob * 100).toFixed(1)] and
    the same of [gnn_fraud_prob]. *)
Definition fraudText (r : TxResult) : JS.percent := JS.Times100 (fraud_prob r).

Definition gnnText (r : TxResult) : JS.percent := JS.Times100 (gnn_fraud_prob r).

End PredictPage.

(** ** The upload page *)

Module UploadPage.

(** The summary that [/upload] answers with. *)
Record Summary : Type := {
  count : JS.value;
  high_risk : JS.value;
  medium_risk : JS.value;
  low_risk : JS.value
}.

(** The [useState] cells of the component, the chosen file by its name. *)
Record State : Type := {
  file : option string;
  result : option Summary;
  loading : bool
}.

Definition initial : State :=
  {| file := None; result := None; loading := false |}.

Definition setFile (v : option string) (st : State) : State :=
  {| file := v; result := result st; loading := loading st |}.
Definition setResult (v : option Summary) (st : State) : State :=
  {| file := file st; result := v; loading := loading st |}.
Definition setLoading (v : bool) (st : State) : State :=
  {| file := file st; result := result st; loading := v |}.

Inductive Body : Type :=
| Malformed
| Parsed (data : Summary).

Record Response : Type := { ok : bool; body : Body }.

Inductive FetchOutcome : Type :=
| Rejected
| Resolved (res : Response).

Inductive Exn : Type :=
| TypeError
| SyntaxError.

Section Upload.

(** The back end as the outcome it gives for the posted file. *)
Variable network : string -> FetchOutcome.

(** [uploadCSV]: no [try], and the response is read whatever its status. *)
Definition uploadCSV : Eff State Exn unit :=
  fun st =>
    match file st with
    | None => ret tt st
    | Some f =>
        (modify (setLoading true) ;;
         res <- match network f with
                | Rejected => throw TypeError
                | Resolved res => ret res
                end ;;
         data <- match body res with
                 | Malformed => throw SyntaxError
                 | Parsed data => ret data
                 end ;;
         modify (setResult (Some data)) ;;
         modify (setLoading false))%eff st
    end.

End Upload.

(** The upload button is disabled under [!file || loading]. *)
Definition buttonDisabled (st : State) : bool :=
  match file st with None => true | Some _ => loading st end.

End UploadPage.

(** ** The graph library

    The transaction page builds its graph with graphology's [Graph], made
    by [new Graph()]: a mixed graph, not a multigraph, self loops allowed.
    Keys are strings (the library coerces them).  The graph is held as the
    nodes and the edges in the order [addNode] and [addEdge] stored them, so
    that each entry is one successful call. *)

Module Graphology.

Inductive GraphError : Type :=
| NotFoundGraphError
| UsageGraphError.

Section Graph.

Variables NodeAttributes EdgeAttributes : Type.

Record Graph : Type := {
  nodes : list (string * NodeAttributes);
  edges : list (string * string * EdgeAttributes)
}.

Definition empty : Graph := {| nodes := []; edges := [] |}.

Definition order (G : Graph) : nat := List.length (nodes G).

Definition hasNode (G : Graph) (node : string) : bool :=
  existsb (fun entry => String.eqb (fst entry) node) (nodes G).

(** [hasEdge(source, target)]: an edge from [source] to [target]. *)
Definition hasEdge (G : Graph) (source target : string) : bool :=
  existsb (fun entry => String.eqb (fst (fst entry)) source
                        && String.eqb (snd (fst entry)) target) (edges G).

(** [addNode] throws when the key is taken. *)
Definition addNode (node : string) (attributes : NodeAttributes)
  : Eff Graph GraphError unit :=
  fun G =>
    if hasNode G node then throw UsageGraphError G
    else ({| nodes := nodes G ++ [(node, attributes)]; edges := edges G |},
          inr tt).

(** [addEdge] adds a directed edge; it throws when an end is not a node
    of the graph, and when the two nodes are linked already. *)
Definition addEdge (source target : string) (attributes : EdgeAttributes)
  : Eff Graph GraphError unit :=
  fun G =>
    if negb (hasNode G source) then throw NotFoundGraphError G
    else if negb (hasNode G target) then throw NotFoundGraphError G
    else if hasEdge G source target then throw UsageGraphError G
    else ({| nodes := nodes G;
             edges := edges G ++ [(source, target, attributes)] |},
          inr tt).

Definition nodeKeys (G : Graph) : list string := map fst (nodes G).

Definition edgeEnds (G : Graph) : list (string * string) :=
  map fst (edges G).

End Graph.

Arguments nodes {NodeAttributes EdgeAttributes} _.
Arguments edges {NodeAttributes EdgeAttributes} _.
Arguments empty {NodeAttributes EdgeAttributes}.
Arguments order {NodeAttributes EdgeAttributes} _.
Arguments hasNode {NodeAttributes EdgeAttributes} _ _.
Arguments hasEdge {NodeAttributes EdgeAttributes} _ _ _.
Arguments addNode {NodeAttributes EdgeAttributes} _ _ _.
Arguments addEdge {NodeAttributes EdgeAttributes} _ _ _ _.
Arguments nodeKeys {NodeAttributes EdgeAttributes} _.
Arguments edgeEnds {NodeAttributes EdgeAttributes} _.

End Graphology.

(** ** The transaction page *)

Module TxPage.

Import Graphology.

(** A node and an edge of the [/graph] response. *)
Module Node.
Record t : Type := {
  id : string;
  label : string;
  type : string;
  risk : option number;
  is_flagged : JS.value
}.
End Node.

Module Edge.
Record t : Type := {
  source : string;
  target : string;
  direction : string
}.
End Edge.

(** The attributes given to [addNode] and to [addEdge]. *)
Module NodeAttrs.
Record t : Type := {
  label : string;
  size : Z;
  color : string;
  x : JS.coordinate;
  y : JS.coordinate;
  borderColor : option string;
  borderSize : Z
}.
End NodeAttrs.

Module EdgeAttrs.
Record t : Type := {
  color : string;
  size : Z;
  type : string
}.
End EdgeAttrs.

Definition G : Type := Graph NodeAttrs.t EdgeAttrs.t.

(** [getNodeColor]. *)
Definition getNodeColor (risk : number) (type : string) (isFlagged : bool)
  : string :=
  if String.eqb type "center" then "#cc00ff"
  else if isFlagged then "#000000"
  else if JS.ge risk (JS.of_Z 80) then "#ff0000"
  else if JS.ge risk (JS.of_Z 60) then "#ff8c00"
  else if JS.ge risk (JS.of_Z 40) then "#ffd700"
  else "#00bfff".

(** [getEdgeColor]. *)
Definition getEdgeColor (direction : string) : string :=
  if String.eqb direction "outgoing" then "#ff6b6b"
  else if String.eqb direction "incoming" then "#51cf66"
  else "#888888".

(** [n.risk || 0]. *)
Definition risk_or_0 (risk : option number) : number :=
  match risk with
  | Some r => if JS.truthy r then r else JS.of_Z 0
  | None => JS.of_Z 0
  end.

(** [n.is_flagged === true || n.is_flagged === 1]. *)
Definition isFlagged (n : Node.t) : bool :=
  JS.is_true (Node.is_flagged n) || JS.is_num (Node.is_flagged n) (JS.of_Z 1).

(** [n.type === "center" ? 0 : 100]. *)
Definition radius (n : Node.t) : number :=
  if String.eqb (Node.type n) "center" then JS.of_Z 0 else JS.of_Z 100.

Definition nodeAttributes (length : nat) (n : Node.t) (index : nat)
  : NodeAttrs.t :=
  {| NodeAttrs.label :=
       if isFlagged n then "🚩 " ++ Node.label n else Node.label n;
     NodeAttrs.size :=
       if isFlagged n then 20
       else if String.eqb (Node.type n) "center" then 18 else 10;
     NodeAttrs.color :=
       getNodeColor (risk_or_0 (Node.risk n)) (Node.type n) (isFlagged n);
     NodeAttrs.x := JS.CosTimes index length (radius n);
     NodeAttrs.y := JS.SinTimes index length (radius n);
     NodeAttrs.borderColor := if isFlagged n then Some "#ff0000" else None;
     NodeAttrs.borderSize := if isFlagged n then 3 else 0 |}.

Definition edgeAttributes (e : Edge.t) : EdgeAttrs.t :=
  {| EdgeAttrs.color := getEdgeColor (Edge.direction e);
     EdgeAttrs.size := if String.eqb (Edge.direction e) "indirect" then 1 else 2;
     EdgeAttrs.type := "arrow" |}.

(** The two loops of the render effect. *)
Definition addNodes (nodes : list Node.t) : Eff G GraphError unit :=
  forEach (fun n index =>
    has <- gets (fun g => hasNode g (Node.id n)) ;;
    if negb has
    then addNode (Node.id n) (nodeAttributes (List.length nodes) n index)
    else ret tt)%eff nodes.

Definition addEdges (edges : list Edge.t) : Eff G GraphError unit :=
  forEach (fun e (_ : nat) =>
    has <- gets (fun g => hasEdge g (Edge.source e) (Edge.target e)) ;;
    if negb has
    then addEdge (Edge.source e) (Edge.target e) (edgeAttributes e)
    else ret tt)%eff edges.

Definition buildGraph (nodes : list Node.t) (edges : list Edge.t)
  : Eff G GraphError unit :=
  (addNodes nodes ;; addEdges edges)%eff.

Section Layout.

(** [forceAtlas2.assign] with the settings of the page: the graph with
    its nodes moved, or [None] when the call throws. *)
Variable forceAtlas2_assign : G -> option G.

(** The layout step: only for a graph of more than one node, and a
    failure is caught and leaves the circular positions. *)
Definition applyLayout : Eff G GraphError unit :=
  fun g =>
    if (1 <? order g)%nat
    then match forceAtlas2_assign g with
         | Some g' => (g', inr tt)
         | None => (g, inr tt)
         end
    else (g, inr tt).

(** The render effect from [new Graph()] to the graph handed to
    [new Sigma], once past its early returns. *)
Definition renderGraph (nodes : list Node.t) (edges : list Edge.t)
  : G * (GraphError + unit) :=
  (buildGraph nodes edges ;; applyLayout)%eff empty.

End Layout.

(** The route parameter [id] of [useParams]. *)
Inductive Param : Type :=
| ParamUndefined
| ParamString (s : JS.str)
| ParamArray (l : list JS.str).

(** [displayId]. *)
Definition displayId (id : Param) : Param :=
  match id with
  | ParamString s =>
      let len := Z.of_nat (List.length s) in
      if (16 <? len)%Z
      then ParamString (JS.substring s 0 (Some 8%Z) ++ JS.str_of "..."
                        ++ JS.substring s (len - 8) None)%list
      else id
  | _ => id
  end.

(** [txData?.anomaly_score ?? txData?.anomaly_score_norm ?? null]. *)
Definition anomaly (txData : option PredictPage.TxResult) : option number :=
  JS.nullish
    (JS.nullish
       (match txData with Some d => PredictPage.anomaly_score d | None => None end)
       (match txData with Some d => PredictPage.anomaly_score_norm d | None => None end))
    None.

(** The anomaly card: [anomaly ? anomaly.toFixed(3) : "—"]. *)
Definition anomalyText (txData : option PredictPage.TxResult) : JS.text :=
  match anomaly txData with
  | Some v => if JS.truthy v then JS.ToFixed v 3 else JS.Literal "—"
  | None => JS.Literal "—"
  end.

(** The two probability cards:
    [txData.fraud_prob ? (txData.fraud_prob * 100).toFixed(1) : "—"] and
    the same of [gnn_fraud_prob]. *)
Definition fraudText (txData : PredictPage.TxResult) : JS.percent :=
  if JS.truthy (PredictPage.fraud_prob txData)
  then JS.Times100 (PredictPage.fraud_prob txData)
  else JS.NoPercent.

Definition gnnText (txData : PredictPage.TxResult) : JS.percent :=
  if JS.truthy (PredictPage.gnn_fraud_prob txData)
  then JS.Times100 (PredictPage.gnn_fraud_prob txData)
  else JS.NoPercent.

(** The response of [/graph]. *)
Record GraphData : Type := {
  nodes_of : option (list Node.t);
  edges_of : option (list Edge.t)
}.

(** The [useState] cells of the component. *)
Record State : Type := {
  txData : option PredictPage.TxResult;
  graph : option GraphData;
  loading : bool;
  graphDepth : Z
}.

Definition initial : State :=
  {| txData := None; graph := None; loading := true; graphDepth := 1 |}.

(** [graph?.nodes ?? []] and [graph?.edges ?? []]. *)
Definition nodesOf (graph : option GraphData) : list Node.t :=
  match graph with
  | Some data => match nodes_of data with Some l => l | None => [] end
  | None => []
  end.

Definition edgesOf (graph : option GraphData) : list Edge.t :=
  match graph with
  | Some data => match edges_of data with Some l => l | None => [] end
  | None => []
  end.

(** The element [#sigma-container] is in the page when the component is
    past its two early returns, on [loading] and on [!txData], and
    [graph && nodes.length > 0] holds. *)
Definition containerRendered (st : State) : bool :=
  negb (loading st)
  && match txData st with Some _ => true | None => false end
  && match graph st with Some _ => true | None => false end
  && (0 <? List.length (nodesOf (graph st)))%nat.

Section RenderEffect.

Variable forceAtlas2_assign : G -> option G.

(** The render effect, run in the browser after a render in which [graph]
    changed: it returns at once when [graph] is unset or the container is
    not in the page, with nothing built, and goes on to [new Graph()] and
    the rest otherwise. *)
Definition renderEffect (st : State) : option (G * (GraphError + unit)) :=
  match graph st with
  | None => None
  | Some _ =>
      if containerRendered st
      then Some (renderGraph forceAtlas2_assign
                   (nodesOf (graph st)) (edgesOf (graph st)))
      else None
  end.

End RenderEffect.

(** The requests of the fetch effect. *)
Inductive Request : Type :=
| GetTx (id : string)
| GetGraph (id : string) (depth : Z).

(** The three depth buttons and the settling of [Promise.all]. *)
Inductive Button : Type := Hop1 | Hop2 | Hop3.

Inductive Event : Type :=
| Click (b : Button)
| Fulfilled (tx : PredictPage.TxResult) (graphData : GraphData)
| Failed.

(** The argument of [setGraphDepth] in the [onClick] of each button. *)
Definition clicked (b : Button) : Z :=
  match b with Hop1 => 1 | Hop2 => 2 | Hop3 => 3 end.

Section Component.

(** [id], none when the route gives none. *)
Variable id : option string.

(** The fetch effect, run after the first render and after each render
    in which [id] or [graphDepth] changed. *)
Definition fetchEffect (st : State) : State * list Request :=
  match id with
  | None => (st, [])
  | Some i =>
      if String.eqb i "" then (st, [])
      else ({| txData := txData st; graph := graph st; loading := true;
               graphDepth := graphDepth st |},
            [GetTx i; GetGraph i (graphDepth st)])
  end.

Definition step (st : State) (ev : Event) : State * list Request :=
  match ev with
  | Click b =>
      if (clicked b =? graphDepth st)%Z then (st, [])
      else fetchEffect {| txData := txData st; graph := graph st;
                          loading := loading st; graphDepth := clicked b |}
  | Fulfilled tx graphData =>
      ({| txData := Some tx; graph := Some graphData; loading := false;
          graphDepth := graphDepth st |}, [])
  | Failed =>
      ({| txData := txData st; graph := graph st; loading := false;
          graphDepth := graphDepth st |}, [])
  end.

Fixpoint run (st : State) (events : list Event) : State * list Request :=
  match events with
  | [] => (st, [])
  | ev :: rest =>
      let (st1, reqs1) := step st ev in
      let (st2, reqs2) := run st1 rest in
      (st2, reqs1 ++ reqs2)%list
  end.

(** The component from its mount on. *)
Definition session (events : list Event) : State * list Request :=
  let (st0, reqs0) := fetchEffect initial in
  let (st, reqs) := run st0 events in
  (st, reqs0 ++ reqs)%list.

End Component.

End TxPage.

(** ** The fusion scorer *)

Module Fusion.

Inductive ErrorKind : Type := NotFound | InvalidInput | Unavailable.

Record FusionResult : Type := {
  risk_score : Q;
  band : string;
  anomaly_score_norm : Q
}.

Definition clamp (lo hi v : Q) : Q :=
  if Qle_bool v lo then lo else if Qle_bool hi v then hi else v.

Definition in_unit (p : Q) : bool := Qle_bool 0 p && Qle_bool p 1.

(** Modelled from the spec: the band of a score, step 4 of the fusion
    scorer with the thresholds of the data model's invariant. *)
Definition band_of (score : Q) : string :=
  if Qle_bool 80 score then "Critical"
  else if Qle_bool 60 score then "High"
  else if Qle_bool 40 score then "Medium"
  else "Low".

Section Fuse.

(** The two artefacts fitted offline: the normalisation of the anomaly
    score and the combination rule. *)
Variable normalize : Q -> Q.
Variable combine : Q -> Q -> Q -> Q.

(** Modelled from the spec: [fuse] of the fusion scorer, which is not
    among the sources.  A probability outside [0,1] is rejected; the
    anomaly score is normalised, the three signals are combined, the
    combined value is mapped linearly from [0,1] to [0,100] and
    clamped, and the band is read off the score. *)
Definition fuse (fraud_prob gnn_fraud_prob anomaly_score : Q)
  : ErrorKind + FusionResult :=
  if negb (in_unit fraud_prob && in_unit gnn_fraud_prob)
  then inl InvalidInput
  else
    let norm := normalize anomaly_score in
    let combined := combine fraud_prob gnn_fraud_prob norm in
    let score := clamp 0 100 (100 * combined) in
    inr {| risk_score := score;
           band := band_of score;
           anomaly_score_norm := norm |}.

End Fuse.

End Fusion.

(** * What the design states, and data for the examples *)

(** The band of a score as the fixed thresholds state it. *)
Inductive in_band : number -> string -> Prop :=
| band_critical s :
    JS.le (JS.of_Z 80) s -> in_band s "Critical"
| band_high s :
    JS.le (JS.of_Z 60) s -> JS.lt s (JS.of_Z 80) -> in_band s "High"
| band_medium s :
    JS.le (JS.of_Z 40) s -> JS.lt s (JS.of_Z 60) -> in_band s "Medium"
| band_low s :
    JS.lt s (JS.of_Z 40) -> in_band s "Low".

(** ** A graph without duplicates *)

Module GraphRules.

Import Graphology TxPage.

(** No key twice among the nodes, no pair of ends twice among the
    edges. *)
Definition simple (g : G) : Prop :=
  NoDup (nodeKeys g) /\ NoDup (edgeEnds g).

(** The one exception the two loops can throw. *)
Definition missing_end (e : GraphError) : Prop := e = NotFoundGraphError.

End GraphRules.

(** ** Where the attributes of a node come from *)

Module LayoutRules.

Import Graphology TxPage.

(** Every node of the graph was stored for a node of the response, with
    the attributes computed for it at some index. *)
Definition placed (all : list Node.t) (g : G) : Prop :=
  forall key a, In (key, a) (nodes g) ->
    exists n index,
      In n all /\ key = Node.id n
      /\ a = nodeAttributes (List.length all) n index.

End LayoutRules.

(** ** The precedence of the node colors *)

Module ColorRules.

Import TxPage.

(** A node counts as flagged when [is_flagged] is the boolean [true] or
    the number 1, and on no other value. *)
Definition flagged (n : Node.t) : Prop :=
  Node.is_flagged n = JS.VBool true
  \/ exists q, Node.is_flagged n = JS.VNum (JS.Fin q) /\ (q == 1)%Q.

(** The risk of a node, 0 when the response gives none. *)
Definition risk_value (n : Node.t) : number :=
  match Node.risk n with Some r => r | None => JS.of_Z 0 end.

(** The color that goes with a band. *)
Definition band_color (label : string) : string :=
  if String.eqb label "Critical" then "#ff0000"
  else if String.eqb label "High" then "#ff8c00"
  else if String.eqb label "Medium" then "#ffd700"
  else "#00bfff".

(** The precedence: center, then flagged, then the band of the risk. *)
Inductive color_rule : Node.t -> string -> Prop :=
| color_center n :
    Node.type n = "center" -> color_rule n "#cc00ff"
| color_flagged n :
    Node.type n <> "center" -> flagged n -> color_rule n "#000000"
| color_by_risk n :
    Node.type n <> "center" -> ~ flagged n ->
    color_rule n (band_color (Band.label (PredictPage.riskBand (risk_value n)))).

End ColorRules.

(** ** The truncation rule *)

Module TruncateRules.

(** The rule in words: the whole identifier up to 16 characters, else
    its first 8 characters, three dots and its last 8 characters. *)
Definition truncated (s : JS.str) : JS.str :=
  if (List.length s <=? 16)%nat then s
  else (firstn 8 s ++ JS.str_of "..." ++ skipn (List.length s - 8) s)%list.

End TruncateRules.

(** ** The range of the depth *)

Module DepthRules.

Import TxPage.

Definition depth_in_range (d : Z) : Prop := d = 1%Z \/ d = 2%Z \/ d = 3%Z.

Definition request_in_range (r : Request) : Prop :=
  match r with
  | GetGraph _ d => depth_in_range d
  | GetTx _ => True
  end.

End DepthRules.

(** ** The outcomes of a lookup *)

Module SubmitRules.

Import PredictPage.

(** The lookup failed: [fetch] rejected, or the response is not ok. *)
Definition failed (o : FetchOutcome) : Prop :=
  o = Rejected \/ exists res, o = Resolved res /\ ok res = false.

(** The lookup succeeded with the record [d] as its body. *)
Definition succeeded (o : FetchOutcome) (d : TxResult) : Prop :=
  exists res, o = Resolved res /\ ok res = true /\ body res = Parsed d.

Definition url (trim : string -> string) (st : State) : string :=
  "http://127.0.0.1:8000/tx/" ++ trim (txId st).

End SubmitRules.

(** ** A small graph response and a layout *)

Module SampleGraph.

Import Graphology TxPage.

(** A layout for the examples: every node goes to (1, 1). *)
Definition to_one_one (g : G) : option G :=
  Some {| nodes :=
            map (fun entry =>
                   (fst entry,
                    {| NodeAttrs.label := NodeAttrs.label (snd entry);
                       NodeAttrs.size := NodeAttrs.size (snd entry);
                       NodeAttrs.color := NodeAttrs.color (snd entry);
                       NodeAttrs.x := JS.Num (JS.of_Z 1);
                       NodeAttrs.y := JS.Num (JS.of_Z 1);
                       NodeAttrs.borderColor := NodeAttrs.borderColor (snd entry);
                       NodeAttrs.borderSize := NodeAttrs.borderSize (snd entry) |}))
                (nodes g);
          edges := edges g |}.

Definition center_node (id : string) : Node.t :=
  {| Node.id := id; Node.label := id; Node.type := "center";
     Node.risk := Some (JS.of_Z 10); Node.is_flagged := JS.VBool false |}.

Definition neighbor_node (id : string) (risk : option number)
    (is_flagged : JS.value) : Node.t :=
  {| Node.id := id; Node.label := id; Node.type := "neighbor";
     Node.risk := risk; Node.is_flagged := is_flagged |}.

Definition edge (source target direction : string) : Edge.t :=
  {| Edge.source := source; Edge.target := target;
     Edge.direction := direction |}.

End SampleGraph.

(** ** A record, a trim and a back end *)

Module SampleLookup.

Import PredictPage.

Definition record (raw norm : option number) : PredictPage.TxResult :=
  {| PredictPage.secure_id := "a3f1";
     PredictPage.fraud_prob := JS.Fin (92 # 100);
     PredictPage.gnn_fraud_prob := JS.Fin (10 # 100);
     PredictPage.anomaly_score := raw;
     PredictPage.anomaly_score_norm := norm;
     PredictPage.risk_score := JS.Fin (61 # 1);
     PredictPage.alert := "High" |}.

(** Leading and trailing spaces removed, a [trim] for the examples. *)
Fixpoint drop_spaces (l : list ascii) : list ascii :=
  match l with
  | " "%char :: rest => drop_spaces rest
  | _ => l
  end.

Definition trim_spaces (s : string) : string :=
  string_of_list_ascii
    (rev (drop_spaces (rev (drop_spaces (list_ascii_of_string s))))).

(** A back end that knows the one transaction "a3f1". *)
Definition one_record_network (u : string) : FetchOutcome :=
  if String.eqb u "http://127.0.0.1:8000/tx/a3f1"
  then Resolved {| ok := true;
                   body := Parsed (record None (Some (JS.Fin (2 # 5)))) |}
  else Resolved {| ok := false; body := Malformed |}.

Definition typed (s : string) (shown : option TxResult) : State :=
  {| txId := s; result := shown; loading := false; error := "" |}.

End SampleLookup.

(** ** A normalisation and a combiner *)

Module SampleFusion.

Import Fusion.

(** A min-max normalisation on the range [-1/2, 1/2] and a weighted
    average, for the examples. *)
Definition minmax (a : Q) : Q := clamp 0 1 (a + (1 # 2)).

Definition weighted (fraud_prob gnn_fraud_prob norm : Q) : Q :=
  (1 # 2) * fraud_prob + (3 # 10) * gnn_fraud_prob + (1 # 5) * norm.

End SampleFusion.

(** ** The first node of a key *)

Module BuildRules.

Import Graphology TxPage.

(** [n] is the node at [index] of the response, it has the key, and no
    node before it has. *)
Definition first_at (nodes : list Node.t) (key : string) (index : nat)
    (n : Node.t) : Prop :=
  nth_error nodes index = Some n
  /\ Node.id n = key
  /\ forall j m, (j < index)%nat -> nth_error nodes j = Some m -> Node.id m <> key.

(** The edges of a graph end in nodes of the graph. *)
Definition closed (g : G) : Prop :=
  forall s t, In (s, t) (edgeEnds g) -> In s (nodeKeys g) /\ In t (nodeKeys g).

End BuildRules.

(** ** The latest requests *)

Module RequestRules.

Import TxPage.

(** The requests so far end with the pair for the depth of the state. *)
Definition up_to_date (i : string) (st : State) (reqs : list Request) : Prop :=
  exists earlier,
    reqs = (earlier ++ [GetTx i; GetGraph i (graphDepth st)])%list.

End RequestRules.

(** ** A chosen file and two back ends for the upload *)

Module SampleUpload.

Import UploadPage.

(** A back end that answers every file with a server error whose body
    parses, and one that is down. *)
Definition error_answer : Summary :=
  {| count := JS.VUndefined; high_risk := JS.VUndefined;
     medium_risk := JS.VUndefined; low_risk := JS.VUndefined |}.

Definition failing_network (_ : string) : FetchOutcome :=
  Resolved {| ok := false; body := Parsed error_answer |}.

Definition down_network (_ : string) : FetchOutcome := Rejected.

Definition chosen (f : string) : State :=
  {| file := Some f; result := None; loading := false |}.

End SampleUpload.

(** ** Rows for the landing page *)

Module SampleRows.

Definition row (k : nat) : Home.RiskRow :=
  {| Home.secure_id := JS.str_of "9f86d081884c7d65";
     Home.risk_score := JS.of_Z (100 - Z.of_nat k);
     Home.fraud_prob := JS.Fin (9 # 10);
     Home.gnn_fraud_prob := JS.Fin (8 # 10);
     Home.anomaly_score_norm := None;
     Home.anomaly_score := None;
     Home.alert := "High" |}.

Definition rows (n : nat) : list Home.RiskRow := map row (seq 0 n).

Definition loaded (n : nat) (page : Z) : Home.State :=
  {| Home.topRisk := rows n; Home.loading := false; Home.error := "";
     Home.searchId := ""; Home.currentPage := page |}.

End SampleRows.

(** ** The arithmetic of doubles *)

Module DoubleRules.

(** What the rounding to a double has of the rounding to nearest: a zero
    stays a zero, and a result within a power of two up to 2^1023 is
    rounded to a finite number within it. *)
Definition rounds_to_nearest (round : Q -> number) : Prop :=
  (forall q, q == 0 -> exists z, round q = JS.Fin z /\ z == 0)
  /\ (forall q (k : nat), (k <= 1023)%nat ->
        Qabs q <= inject_Z (2 ^ Z.of_nat k) ->
        exists q', round q = JS.Fin q'
                   /\ Qabs q' <= inject_Z (2 ^ Z.of_nat k)).

(** [Math.cos] and [Math.sin] give a finite number on a finite number. *)
Definition finite_on_finite (f : number -> number) : Prop :=
  forall q, exists c, f (JS.Fin q) = JS.Fin c.

(** A zero. *)
Definition is_zero (v : number) : Prop := exists z, v = JS.Fin z /\ z == 0.

End DoubleRules.

(** ** An arithmetic and two pages for the examples *)

Module SamplePage.

(** No rounding, and the first terms of the two series. *)
Definition exact (q : Q) : number := JS.Fin q.

Definition cosine (a : number) : number :=
  match a with
  | JS.Fin q => JS.Fin (1 - q * q / 2 + q * q * q * q / 24)
  | _ => JS.NaN
  end.

Definition sine (a : number) : number :=
  match a with
  | JS.Fin q => JS.Fin (q - q * q * q / 6)
  | _ => JS.NaN
  end.

(** The page once the two requests are settled. *)
Definition shown (nodes : list TxPage.Node.t) (edges : list TxPage.Edge.t)
  : TxPage.State :=
  {| TxPage.txData := Some (SampleLookup.record None (Some (JS.Fin (2 # 5))));
     TxPage.graph := Some {| TxPage.nodes_of := Some nodes;
                             TxPage.edges_of := Some edges |};
     TxPage.loading := false;
     TxPage.graphDepth := 1 |}.

Definition lone_center : TxPage.State := shown [SampleGraph.center_node "tx"] [].

Definition center_and_neighbor : TxPage.State :=
  shown [SampleGraph.center_node "tx";
         SampleGraph.neighbor_node "n1" None JS.VNull]
        [SampleGraph.edge "tx" "n1" "outgoing"].

End SamplePage.

(** The sentence of the design that the starting positions are always laid
    out again: the effect hands a graph to the renderer and it is the one
    ForceAtlas2 returns for the graph the two loops built. *)
Definition laid_out_again (forceAtlas2_assign : TxPage.G -> option TxPage.G)
    (st : TxPage.State) : Prop :=
  exists g r,
    TxPage.renderEffect forceAtlas2_assign st = Some (g, r)
    /\ forceAtlas2_assign
         (fst (TxPage.buildGraph (TxPage.nodesOf (TxPage.graph st))
                 (TxPage.edgesOf (TxPage.graph st)) Graphology.empty))
       = Some g.

(** * Properties *)

(** ** Numbers *)

Lemma ge_iff_le (a b : number) : JS.ge a b = true <-> JS.le b a.
Proof.
  split.
  - destruct a as [| |x|], b as [| |y|]; simpl; intros H;
      try discriminate; try (constructor; discriminate).
    constructor. now apply Qle_bool_iff.
  - intros H. inversion H as [x y Hxy| c Hc | c Hc]; subst; simpl.
    + now apply Qle_bool_iff.
    + destruct a; try reflexivity. now elim Hc.
    + destruct b; try reflexivity. now elim Hc.
Qed.

Lemma lt_not_ge (a b : number) : JS.lt a b -> JS.ge a b = false.
Proof.
  intros H. inversion H as [x y Hxy| | |]; subst; simpl; try reflexivity.
  destruct (Qle_bool y x) eqn:E; [|reflexivity].
  apply Qle_bool_iff in E. exfalso. revert E. now apply Qlt_not_le.
Qed.

Lemma lt_le_trans (a b c : number) : JS.lt a b -> JS.le b c -> JS.lt a c.
Proof.
  intros Hab Hbc.
  inversion Hab as [x y Hxy | y | x |]; subst;
    inversion Hbc as [u v Huv | d Hd | d Hd]; subst; try constructor.
  eapply Qlt_le_trans; eassumption.
Qed.

(** ** Risk bands *)

Lemma of_Z_le (a b : Z) : (a <= b)%Z -> JS.le (JS.of_Z a) (JS.of_Z b).
Proof. intros H. constructor. now rewrite <- Zle_Qle. Qed.

Lemma predict_riskBand_in_band (s : number) (l : string) :
  in_band s l -> Band.label (PredictPage.riskBand s) = l.
Proof.
  intros H. unfold PredictPage.riskBand.
  inversion H as [s0 H80 | s0 H60 H80 | s0 H40 H60 | s0 H40]; subst.
  - apply ge_iff_le in H80. now rewrite H80.
  - apply lt_not_ge in H80. apply ge_iff_le in H60. now rewrite H80, H60.
  - pose proof (lt_le_trans _ _ _ H60 (of_Z_le 60 80 ltac:(lia))) as H80.
    apply lt_not_ge in H80, H60. apply ge_iff_le in H40.
    now rewrite H80, H60, H40.
  - pose proof (lt_le_trans _ _ _ H40 (of_Z_le 40 60 ltac:(lia))) as H60.
    pose proof (lt_le_trans _ _ _ H40 (of_Z_le 40 80 ltac:(lia))) as H80.
    apply lt_not_ge in H80, H60, H40.
    now rewrite H80, H60, H40.
Qed.

Lemma riskBand_same (s : number) : Home.riskBand s = PredictPage.riskBand s.
Proof. reflexivity. Qed.

(** C1.  On the predict page and on the landing page alike, [riskBand]
    gives a score the band of the fixed thresholds, each inclusive below:
    Critical from 80 on (80 itself included), High on [60, 80), Medium on
    [40, 60) and Low under 40. *)
Theorem riskBand_thresholds (s : number) (l : string) :
  in_band s l ->
  Band.label (PredictPage.riskBand s) = l /\ Band.label (Home.riskBand s) = l.
Proof.
  intros H. split; [|rewrite (riskBand_same s)]; now apply predict_riskBand_in_band.
Qed.

Lemma riskBand_thresholds_witness :
  (Band.label (PredictPage.riskBand (JS.of_Z 80)) = "Critical"
   /\ Band.label (Home.riskBand (JS.of_Z 80)) = "Critical")
  /\ (Band.label (PredictPage.riskBand (JS.Fin (7999 # 100))) = "High"
      /\ Band.label (Home.riskBand (JS.Fin (7999 # 100))) = "High").
Proof.
  split.
  - apply (riskBand_thresholds (JS.of_Z 80) "Critical").
    apply band_critical. constructor. apply Qle_refl.
  - apply (riskBand_thresholds (JS.Fin (7999 # 100)) "High").
    apply band_high; constructor.
    + unfold Qle; simpl; lia.
    + unfold Qlt; simpl; lia.
Defined.

(** C6.  Whatever the score, not-a-number and the infinities included, the
    label of its band is one of the four literals. *)
Theorem riskBand_label_literal (s : number) :
  In (Band.label (PredictPage.riskBand s)) ["Low"; "Medium"; "High"; "Critical"]
  /\ In (Band.label (Home.riskBand s)) ["Low"; "Medium"; "High"; "Critical"].
Proof.
  change (Home.riskBand s) with (PredictPage.riskBand s).
  unfold PredictPage.riskBand.
  destruct (JS.ge s (JS.of_Z 80)); [simpl; tauto|].
  destruct (JS.ge s (JS.of_Z 60)); [simpl; tauto|].
  destruct (JS.ge s (JS.of_Z 40)); simpl; tauto.
Qed.

(** ** Loops over an array *)

Section ForEachInvariant.

Context {S E A : Type}.
Variable P : S -> Prop.
Variable Q : E -> Prop.
Variable f : A -> nat -> Eff S E unit.

(** When the callback keeps the invariant on the elements of the array,
    whether it returns or throws, and throws only exceptions of [Q], so
    does the loop. *)
Lemma forEach_from_keeps (l : list A) :
  (forall a index st, In a l -> P st ->
     P (fst (f a index st)) /\ forall e, snd (f a index st) = inl e -> Q e) ->
  forall index st, P st ->
    P (fst (forEach_from f index l st))
    /\ forall e, snd (forEach_from f index l st) = inl e -> Q e.
Proof.
  induction l as [|a rest IH]; intros Hf index st Hst; simpl.
  - split; [assumption | discriminate].
  - unfold bind.
    destruct (Hf a index st (or_introl eq_refl) Hst) as [HP HQ].
    destruct (f a index st) as [st' [e|[]]]; simpl in *.
    + split; [assumption|]. intros e' He'. apply HQ. assumption.
    + apply IH; [|assumption].
      intros b i s Hb. apply Hf. now right.
Qed.

End ForEachInvariant.

(** ** The graph of the transaction page has no duplicates *)

Module GraphFacts.

Import GraphRules.

Import Graphology TxPage.

Lemma hasNode_In (g : G) (k : string) :
  hasNode g k = true <-> In k (nodeKeys g).
Proof.
  unfold hasNode, nodeKeys. rewrite existsb_exists, in_map_iff.
  split; intros [[k' a] [H1 H2]]; exists (k', a); simpl in *.
  - apply String.eqb_eq in H2. auto.
  - split; [assumption|]. now apply String.eqb_eq.
Qed.

Lemma hasEdge_In (g : G) (s t : string) :
  hasEdge g s t = true <-> In (s, t) (edgeEnds g).
Proof.
  unfold hasEdge, edgeEnds. rewrite existsb_exists, in_map_iff.
  split; intros [[[s' t'] a] [H1 H2]]; exists (s', t', a); simpl in *.
  - apply andb_true_iff in H2. destruct H2 as [Hs Ht].
    apply String.eqb_eq in Hs, Ht. subst. auto.
  - split; [assumption|]. injection H1 as -> ->.
    now rewrite !String.eqb_refl.
Qed.

Lemma NoDup_snoc {A : Type} (l : list A) (a : A) :
  NoDup l -> ~ In a l -> NoDup (l ++ [a]).
Proof.
  intros Hl Ha. apply NoDup_app.
  - assumption.
  - constructor; [intros [] | constructor].
  - intros b Hb [<-|[]]. contradiction.
Qed.

Lemma empty_simple : simple empty.
Proof. split; constructor. Qed.

(** The guarded [addNode] of the first loop. *)
Lemma node_step_keeps (len : nat) (n : Node.t) (index : nat) (g : G) :
  simple g ->
  let step := (has <- gets (fun g => hasNode g (Node.id n)) ;;
               if negb has
               then addNode (Node.id n) (nodeAttributes len n index)
               else ret tt)%eff in
  simple (fst (step g)) /\ forall e, snd (step g) = inl e -> missing_end e.
Proof.
  intros [Hn He]. cbv zeta. unfold bind, gets, addNode, ret. simpl.
  destruct (hasNode g (Node.id n)) eqn:Hhas; simpl.
  - split; [split; assumption | discriminate].
  - rewrite Hhas. simpl. split; [|discriminate].
    split; [|assumption]. unfold nodeKeys. simpl. rewrite map_app. simpl.
    apply NoDup_snoc; [assumption|].
    intros Hin. apply hasNode_In in Hin. congruence.
Qed.

(** The guarded [addEdge] of the second loop. *)
Lemma edge_step_keeps (e : Edge.t) (g : G) :
  simple g ->
  let step := (has <- gets (fun g => hasEdge g (Edge.source e) (Edge.target e)) ;;
               if negb has
               then addEdge (Edge.source e) (Edge.target e) (edgeAttributes e)
               else ret tt)%eff in
  simple (fst (step g)) /\ forall x, snd (step g) = inl x -> missing_end x.
Proof.
  intros [Hn He]. cbv zeta. unfold bind, gets, addEdge, ret, throw. simpl.
  destruct (hasEdge g (Edge.source e) (Edge.target e)) eqn:Hhas; simpl.
  - split; [split; assumption | discriminate].
  - destruct (hasNode g (Edge.source e)); simpl;
      [|split; [split; assumption | intros x [= <-]; reflexivity]].
    destruct (hasNode g (Edge.target e)); simpl;
      [|split; [split; assumption | intros x [= <-]; reflexivity]].
    rewrite Hhas. simpl. split; [|discriminate].
    split; [assumption|]. unfold edgeEnds. simpl. rewrite map_app. simpl.
    apply NoDup_snoc; [assumption|].
    intros Hin. apply hasEdge_In in Hin. congruence.
Qed.

Lemma addNodes_keeps (nodes : list Node.t) (g : G) :
  simple g ->
  simple (fst (addNodes nodes g))
  /\ forall e, snd (addNodes nodes g) = inl e -> missing_end e.
Proof.
  intros Hg. unfold addNodes, forEach.
  apply (forEach_from_keeps simple missing_end); [|assumption].
  intros n index st _ Hst. now apply node_step_keeps.
Qed.

Lemma addEdges_keeps (edges : list Edge.t) (g : G) :
  simple g ->
  simple (fst (addEdges edges g))
  /\ forall e, snd (addEdges edges g) = inl e -> missing_end e.
Proof.
  intros Hg. unfold addEdges, forEach.
  apply (forEach_from_keeps simple missing_end); [|assumption].
  intros e index st _ Hst. now apply edge_step_keeps.
Qed.

Lemma buildGraph_keeps (nodes : list Node.t) (edges : list Edge.t) (g : G) :
  simple g ->
  simple (fst (buildGraph nodes edges g))
  /\ forall e, snd (buildGraph nodes edges g) = inl e -> missing_end e.
Proof.
  intros Hg. unfold buildGraph, bind.
  destruct (addNodes_keeps nodes g Hg) as [H1 H2].
  destruct (addNodes nodes g) as [g1 [e|[]]]; simpl in *.
  - split; [assumption|]. intros e' [= <-]. now apply H2.
  - now apply addEdges_keeps.
Qed.

(** A response that repeats a node and an edge, and one with an edge to a
    node that is not there. *)
Example repeated_entries_stored_once :
  let built :=
    buildGraph
      [SampleGraph.center_node "tx";
       SampleGraph.neighbor_node "n1" None JS.VNull;
       SampleGraph.center_node "tx";
       SampleGraph.neighbor_node "n1" (Some (JS.of_Z 90)) (JS.VBool true)]
      [SampleGraph.edge "tx" "n1" "outgoing";
       SampleGraph.edge "tx" "n1" "indirect";
       SampleGraph.edge "n1" "tx" "incoming"]
      empty in
  nodeKeys (fst built) = ["tx"; "n1"]
  /\ edgeEnds (fst built) = [("tx", "n1"); ("n1", "tx")]
  /\ snd built = inr tt.
Proof. cbv zeta. repeat split. Qed.

Example edge_to_missing_node_throws :
  let built :=
    buildGraph [SampleGraph.center_node "tx"]
      [SampleGraph.edge "tx" "n1" "outgoing"] empty in
  nodeKeys (fst built) = ["tx"]
  /\ edgeEnds (fst built) = []
  /\ snd built = inl NotFoundGraphError.
Proof. cbv zeta. repeat split. Qed.

End GraphFacts.

(** C2.  Whatever the response holds, repeated node ids and repeated
    (source, target) pairs included, the graph the two loops leave has no
    node key twice and no pair of ends twice, and neither loop ever makes
    the library throw for a key or a pair that is there already: the one
    exception left is the one for an edge with an end that is no node. *)
Theorem graph_no_duplicates
    (nodes : list TxPage.Node.t) (edges : list TxPage.Edge.t) :
  let built := TxPage.buildGraph nodes edges Graphology.empty in
  NoDup (Graphology.nodeKeys (fst built))
  /\ NoDup (Graphology.edgeEnds (fst built))
  /\ snd built <> inl Graphology.UsageGraphError.
Proof.
  cbv zeta.
  destruct (GraphFacts.buildGraph_keeps nodes edges Graphology.empty
              GraphFacts.empty_simple) as [[Hn He] Hex].
  repeat split; try assumption.
  intros Hthrow. apply Hex in Hthrow. discriminate.
Qed.

(** ** Where the nodes start, and the layout step *)

Module LayoutFacts.

Import LayoutRules.

Import Graphology TxPage.

Lemma addNodes_placed (all : list Node.t) (g : G) :
  placed all g -> placed all (fst (addNodes all g)).
Proof.
  intros Hg. unfold addNodes, forEach.
  apply (forEach_from_keeps (placed all) (fun _ => True)); [|assumption].
  intros n index st Hn Hst. split; [|trivial].
  unfold bind, gets, addNode, ret, throw. simpl.
  destruct (hasNode st (Node.id n)) eqn:Hhas; simpl; [assumption|].
  rewrite Hhas. simpl. intros key a Hin. simpl in Hin.
  apply in_app_or in Hin. destruct Hin as [Hin|[[= <- <-]|[]]].
  - now apply Hst.
  - now exists n, index.
Qed.

Lemma addEdges_nodes (edges : list Edge.t) (g : G) :
  nodes (fst (addEdges edges g)) = nodes g.
Proof.
  unfold addEdges, forEach.
  apply (forEach_from_keeps (fun st : G => nodes st = nodes g) (fun _ => True));
    [|reflexivity].
  intros e index st _ Hst. split; [|trivial].
  unfold bind, gets, addEdge, ret, throw. simpl.
  destruct (hasEdge st (Edge.source e) (Edge.target e)) eqn:Hhas; simpl;
    [assumption|].
  destruct (hasNode st (Edge.source e)); simpl; [|assumption].
  destruct (hasNode st (Edge.target e)); simpl; [|assumption].
  rewrite Hhas. simpl. assumption.
Qed.

Lemma buildGraph_placed (all : list Node.t) (edges : list Edge.t) :
  placed all (fst (buildGraph all edges empty)).
Proof.
  assert (H0 : placed all empty) by (intros key a []).
  pose proof (addNodes_placed all empty H0) as H1.
  unfold buildGraph, bind.
  destruct (addNodes all empty) as [g1 [e|[]]]; simpl in *; [assumption|].
  intros key a. rewrite addEdges_nodes. apply H1.
Qed.

End LayoutFacts.

(** ** Node colors *)

Module ColorFacts.

Import ColorRules.

Import TxPage.

Lemma isFlagged_flagged (n : Node.t) : isFlagged n = true <-> flagged n.
Proof.
  unfold isFlagged, flagged.
  destruct (Node.is_flagged n) as [| |[|]|[| |q|]|s]; simpl;
    try (split; [discriminate | intros [H|(q' & H & _)]; discriminate]).
  - split; [intros _; now left | reflexivity].
  - split.
    + intros H. right. exists q. split; [reflexivity|].
      now apply Qeq_bool_iff.
    + intros [H|(q' & H & Hq)]; [discriminate|].
      injection H as ->. now apply Qeq_bool_iff.
Qed.

Lemma getNodeColor_band (risk : number) (type : string) :
  type <> "center" ->
  getNodeColor risk type false
  = band_color (Band.label (PredictPage.riskBand risk)).
Proof.
  intros Hc. apply String.eqb_neq in Hc.
  unfold getNodeColor, PredictPage.riskBand. rewrite Hc.
  destruct (JS.ge risk (JS.of_Z 80)); [reflexivity|].
  destruct (JS.ge risk (JS.of_Z 60)); [reflexivity|].
  destruct (JS.ge risk (JS.of_Z 40)); reflexivity.
Qed.

(** A falsy risk and a missing one fall in the band of 0, as 0 does. *)
Lemma riskBand_risk_or_0 (risk : option number) :
  PredictPage.riskBand (risk_or_0 risk)
  = PredictPage.riskBand (match risk with Some r => r | None => JS.of_Z 0 end).
Proof.
  destruct risk as [[| |q|]|]; try reflexivity.
  unfold risk_or_0. simpl. destruct (Qeq_bool q 0) eqn:Hq; [|reflexivity].
  apply Qeq_bool_iff in Hq. simpl.
  unfold PredictPage.riskBand, JS.ge, JS.of_Z.
  assert (H : forall z : Z, (0 < z)%Z -> Qle_bool (inject_Z z) q = false).
  { intros z Hz. destruct (Qle_bool (inject_Z z) q) eqn:E; [|reflexivity].
    apply Qle_bool_iff in E. rewrite Hq in E.
    change 0%Q with (inject_Z 0) in E. rewrite <- Zle_Qle in E. lia. }
  rewrite !H by lia. reflexivity.
Qed.

Lemma risk_or_0_missing : risk_or_0 None = JS.of_Z 0.
Proof. reflexivity. Qed.

End ColorFacts.

(** C8.  The color given to a node follows the precedence: purple for a
    node of type "center", whatever its flag and its risk; black for a
    flagged node that is not the center, whatever its risk; and for the
    others the color of the band that the thresholds 80, 60 and 40 of
    [riskBand] give its risk, a missing risk counting as 0. *)
Theorem node_color_precedence (n : TxPage.Node.t) (c : string) :
  ColorRules.color_rule n c ->
  forall (length index : nat),
    TxPage.NodeAttrs.color (TxPage.nodeAttributes length n index) = c.
Proof.
  intros H len index. unfold TxPage.nodeAttributes. simpl.
  inversion H as [n0 Hc | n0 Hc Hf | n0 Hc Hf]; subst.
  - unfold TxPage.getNodeColor. now rewrite Hc.
  - apply ColorFacts.isFlagged_flagged in Hf. rewrite Hf.
    apply String.eqb_neq in Hc. unfold TxPage.getNodeColor. now rewrite Hc.
  - destruct (TxPage.isFlagged n) eqn:Hfl.
    + apply ColorFacts.isFlagged_flagged in Hfl. contradiction.
    + rewrite ColorFacts.getNodeColor_band by assumption.
      now rewrite ColorFacts.riskBand_risk_or_0.
Qed.

Lemma node_color_precedence_witness :
  TxPage.NodeAttrs.color
    (TxPage.nodeAttributes 3
       (SampleGraph.neighbor_node "n1" (Some (JS.of_Z 95)) (JS.VNum (JS.of_Z 1))) 1)
  = "#000000"
  /\ TxPage.NodeAttrs.color
       (TxPage.nodeAttributes 3
          (SampleGraph.neighbor_node "n2" None (JS.VStr "true")) 2)
     = "#00bfff".
Proof.
  split.
  - apply (node_color_precedence
             (SampleGraph.neighbor_node "n1" (Some (JS.of_Z 95)) (JS.VNum (JS.of_Z 1)))
             "#000000").
    apply ColorRules.color_flagged.
    + discriminate.
    + right. exists (inject_Z 1). split; reflexivity.
  - apply (node_color_precedence
             (SampleGraph.neighbor_node "n2" None (JS.VStr "true")) "#00bfff").
    apply (ColorRules.color_by_risk
             (SampleGraph.neighbor_node "n2" None (JS.VStr "true"))).
    + discriminate.
    + intros [H|(q & H & _)]; discriminate.
Defined.

(** ** Truncated identifiers *)

Module TruncateFacts.

Import TruncateRules.

Lemma substring_prefix {A : Type} (s : list A) (n : Z) :
  (0 <= n <= Z.of_nat (List.length s))%Z ->
  JS.substring s 0 (Some n) = firstn (Z.to_nat n) s.
Proof.
  intros Hn. unfold JS.substring. cbv zeta.
  replace (Z.min (Z.max 0 0) (Z.of_nat (List.length s))) with 0%Z by lia.
  replace (Z.min (Z.max n 0) (Z.of_nat (List.length s))) with n by lia.
  replace (Z.min 0 n) with 0%Z by lia.
  replace (Z.max 0 n) with n by lia.
  rewrite Z.sub_0_r. reflexivity.
Qed.

Lemma substring_suffix {A : Type} (s : list A) (k : Z) :
  (0 <= k <= Z.of_nat (List.length s))%Z ->
  JS.substring s k None = skipn (Z.to_nat k) s.
Proof.
  intros Hk. unfold JS.substring. cbv zeta.
  set (len := Z.of_nat (List.length s)) in *.
  replace (Z.min (Z.max k 0) len) with k by lia.
  replace (Z.min (Z.max len 0) len) with len by lia.
  replace (Z.min k len) with k by lia.
  replace (Z.max k len) with len by lia.
  apply firstn_all2. rewrite length_skipn. lia.
Qed.

Lemma getTruncatedId_truncated (s : JS.str) :
  PredictPage.getTruncatedId s = truncated s.
Proof.
  unfold PredictPage.getTruncatedId, truncated. cbv zeta.
  destruct (List.length s <=? 16)%nat eqn:Hlen.
  - apply Nat.leb_le in Hlen.
    destruct (Z.leb_spec (Z.of_nat (List.length s)) 16); [reflexivity | lia].
  - apply Nat.leb_gt in Hlen.
    destruct (Z.leb_spec (Z.of_nat (List.length s)) 16); [lia|].
    rewrite substring_prefix, substring_suffix by lia.
    replace (Z.to_nat (Z.of_nat (List.length s) - 8)) with (List.length s - 8)%nat
      by lia.
    reflexivity.
Qed.

Lemma displayId_truncated (s : JS.str) :
  TxPage.displayId (TxPage.ParamString s) = TxPage.ParamString (truncated s).
Proof.
  unfold TxPage.displayId, truncated. cbv zeta.
  destruct (List.length s <=? 16)%nat eqn:Hlen.
  - apply Nat.leb_le in Hlen.
    destruct (Z.ltb_spec 16 (Z.of_nat (List.length s))); [lia | reflexivity].
  - apply Nat.leb_gt in Hlen.
    destruct (Z.ltb_spec 16 (Z.of_nat (List.length s))); [|lia].
    rewrite substring_prefix, substring_suffix by lia.
    replace (Z.to_nat (Z.of_nat (List.length s) - 8)) with (List.length s - 8)%nat
      by lia.
    reflexivity.
Qed.

Lemma truncated_long_length (s : JS.str) :
  (16 < List.length s)%nat -> List.length (truncated s) = 19%nat.
Proof.
  intros Hlen. unfold truncated.
  destruct (Nat.leb_spec (List.length s) 16); [lia|].
  rewrite !length_app, length_firstn, length_skipn.
  change (List.length (JS.str_of "...")) with 3%nat. lia.
Qed.

End TruncateFacts.

(** C9.  The two pages truncate an identifier by one and the same rule.
    On every string the transaction page's [displayId] shows what the
    predict page's [getTruncatedId] returns; an identifier of at most 16
    characters is shown whole; a longer one is shown as its first 8
    characters, three dots and its last 8 characters, 19 characters in
    all. *)
Theorem truncation_same_rule (s : JS.str) :
  TxPage.displayId (TxPage.ParamString s)
  = TxPage.ParamString (PredictPage.getTruncatedId s)
  /\ ((List.length s <= 16)%nat -> PredictPage.getTruncatedId s = s)
  /\ ((16 < List.length s)%nat ->
      PredictPage.getTruncatedId s
      = (firstn 8 s ++ JS.str_of "..." ++ skipn (List.length s - 8) s)%list
      /\ List.length (PredictPage.getTruncatedId s) = 19%nat).
Proof.
  rewrite TruncateFacts.displayId_truncated,
    TruncateFacts.getTruncatedId_truncated.
  split; [reflexivity|]. split.
  - intros Hlen. unfold TruncateRules.truncated.
    apply Nat.leb_le in Hlen. now rewrite Hlen.
  - intros Hlen. split.
    + unfold TruncateRules.truncated.
      destruct (Nat.leb_spec (List.length s) 16); [lia | reflexivity].
    + now apply TruncateFacts.truncated_long_length.
Qed.

Lemma truncation_same_rule_witness :
  PredictPage.getTruncatedId (JS.str_of "0123456789abcdef") = JS.str_of "0123456789abcdef"
  /\ (PredictPage.getTruncatedId (JS.str_of "0123456789abcdefXYZ")
      = JS.str_of "01234567...bcdefXYZ"
      /\ List.length (PredictPage.getTruncatedId (JS.str_of "0123456789abcdefXYZ"))
         = 19%nat).
Proof.
  split.
  - apply (proj1 (proj2 (truncation_same_rule (JS.str_of "0123456789abcdef")))).
    simpl. lia.
  - apply (proj2 (proj2 (truncation_same_rule (JS.str_of "0123456789abcdefXYZ")))).
    simpl. lia.
Defined.

(** ** The anomaly card of the two pages *)

Module AnomalyFacts.

(** With both values there, the predict page takes the normalised one
    and the transaction page the raw one. *)
Lemma precedence_reversed (r : PredictPage.TxResult) (raw norm : number) :
  PredictPage.anomaly_score r = Some raw ->
  PredictPage.anomaly_score_norm r = Some norm ->
  PredictPage.anomalyText r = JS.ToFixed norm 3
  /\ TxPage.anomaly (Some r) = Some raw.
Proof.
  intros Hraw Hnorm. unfold PredictPage.anomalyText, TxPage.anomaly.
  now rewrite Hraw, Hnorm.
Qed.

(** The transaction page prints the raw value when it is truthy. *)
Lemma raw_shown_when_truthy (r : PredictPage.TxResult) (raw : number) :
  PredictPage.anomaly_score r = Some raw ->
  JS.truthy raw = true ->
  TxPage.anomalyText (Some r) = JS.ToFixed raw 3.
Proof.
  intros Hraw Ht. unfold TxPage.anomalyText, TxPage.anomaly.
  rewrite Hraw. simpl. now rewrite Ht.
Qed.

End AnomalyFacts.

(** C10.  On a record with the raw anomaly score 0 and the normalised
    score 0.5 the predict page prints the normalised value, and the
    transaction page takes the raw value, as the precedences say, but then
    prints the dash of a missing value in its place. *)
Theorem anomaly_zero_prints_dash :
  let r := SampleLookup.record (Some (JS.of_Z 0)) (Some (JS.Fin (1 # 2))) in
  PredictPage.anomalyText r = JS.ToFixed (JS.Fin (1 # 2)) 3
  /\ TxPage.anomaly (Some r) = Some (JS.of_Z 0)
  /\ TxPage.anomalyText (Some r) = JS.Literal "—"
  /\ TxPage.anomalyText (Some r) <> JS.ToFixed (JS.of_Z 0) 3.
Proof.
  cbv zeta. repeat split. discriminate.
Qed.

(** ** The depth of the graph requests *)

Module DepthFacts.

Import DepthRules.

Import TxPage.

Lemma clicked_in_range (b : Button) : depth_in_range (clicked b).
Proof. destruct b; unfold depth_in_range; simpl; auto. Qed.

Lemma fetchEffect_in_range (id : option string) (st : State) :
  depth_in_range (graphDepth st) ->
  depth_in_range (graphDepth (fst (fetchEffect id st)))
  /\ Forall request_in_range (snd (fetchEffect id st)).
Proof.
  intros Hd. unfold fetchEffect.
  destruct id as [i|]; [|split; [assumption | constructor]].
  destruct (String.eqb i ""); simpl; [split; [assumption | constructor]|].
  split; [assumption|].
  constructor; [exact I|]. constructor; [exact Hd | constructor].
Qed.

Lemma step_in_range (id : option string) (st : State) (ev : Event) :
  depth_in_range (graphDepth st) ->
  depth_in_range (graphDepth (fst (step id st ev)))
  /\ Forall request_in_range (snd (step id st ev)).
Proof.
  intros Hd. destruct ev as [b|tx g|]; simpl.
  - destruct (clicked b =? graphDepth st)%Z.
    + split; [assumption | constructor].
    + apply fetchEffect_in_range. simpl. apply clicked_in_range.
  - split; [assumption | constructor].
  - split; [assumption | constructor].
Qed.

Lemma run_in_range (id : option string) (events : list Event) :
  forall st, depth_in_range (graphDepth st) ->
    depth_in_range (graphDepth (fst (run id st events)))
    /\ Forall request_in_range (snd (run id st events)).
Proof.
  induction events as [|ev rest IH]; intros st Hd; simpl.
  - split; [assumption | constructor].
  - destruct (step_in_range id st ev Hd) as [H1 H2].
    destruct (step id st ev) as [st1 reqs1]. simpl in *.
    destruct (IH st1 H1) as [H3 H4].
    destruct (run id st1 rest) as [st2 reqs2]. simpl in *.
    split; [assumption|]. apply Forall_app. split; assumption.
Qed.

(** Only a click changes the depth, and to the literal of its button. *)
Lemma step_depth (id : option string) (st : State) (ev : Event) :
  graphDepth (fst (step id st ev))
  = match ev with Click b => clicked b | _ => graphDepth st end.
Proof.
  destruct ev as [b|tx g|]; simpl; try reflexivity.
  destruct (Z.eqb_spec (clicked b) (graphDepth st)) as [->|_]; [reflexivity|].
  unfold fetchEffect. destruct id as [i|]; [|reflexivity].
  destruct (String.eqb i ""); reflexivity.
Qed.

Example session_requests :
  snd (session (Some "a3f1") [Click Hop3; Click Hop3; Failed; Click Hop2])
  = [GetTx "a3f1"; GetGraph "a3f1" 1;
     GetTx "a3f1"; GetGraph "a3f1" 3;
     GetTx "a3f1"; GetGraph "a3f1" 2].
Proof. reflexivity. Qed.

End DepthFacts.

(** C4.  The depth starts at 1, and whatever the route parameter and
    whatever the clicks and settled requests that follow the mount, every
    request for the graph asks for depth 1, 2 or 3, and so stands the depth
    of the state in the end. *)
Theorem graph_requests_depth (id : option string) (events : list TxPage.Event) :
  TxPage.graphDepth TxPage.initial = 1%Z
  /\ Forall DepthRules.request_in_range (snd (TxPage.session id events))
  /\ DepthRules.depth_in_range (TxPage.graphDepth (fst (TxPage.session id events))).
Proof.
  split; [reflexivity|]. unfold TxPage.session.
  assert (H0 : DepthRules.depth_in_range (TxPage.graphDepth TxPage.initial))
    by (left; reflexivity).
  destruct (DepthFacts.fetchEffect_in_range id TxPage.initial H0) as [H1 H2].
  destruct (TxPage.fetchEffect id TxPage.initial) as [st0 reqs0]. simpl in *.
  destruct (DepthFacts.run_in_range id events st0 H1) as [H3 H4].
  destruct (TxPage.run id st0 events) as [st reqs]. simpl in *.
  split; [|assumption]. apply Forall_app. split; assumption.
Qed.

(** ** The lookup handler of the predict page *)

Module SubmitFacts.

Import SubmitRules.

Import PredictPage.

(** The state the handler leaves, by the outcome of the request. *)
Lemma handleSubmit_outcome (trim : string -> string)
    (network : string -> FetchOutcome) (st : State) :
  trim (txId st) <> "" ->
  handleSubmit trim network st
  = match network (url trim st) with
    | Resolved {| ok := true; body := Parsed d |} =>
        ({| txId := txId st; result := Some d; loading := false; error := "" |},
         inr tt)
    | Resolved {| ok := true; body := ParsedNull |} =>
        ({| txId := txId st; result := None; loading := false; error := "" |},
         inr tt)
    | _ =>
        ({| txId := txId st; result := None; loading := false;
            error := not_found_message |}, inr tt)
    end.
Proof.
  intros Hne. apply String.eqb_neq in Hne.
  unfold handleSubmit, url. rewrite Hne.
  unfold bind, modify, try_finally, try_catch, fetch, json, throw, ret.
  destruct (network ("http://127.0.0.1:8000/tx/" ++ trim (txId st)))
    as [|[[|] [|d|]]]; reflexivity.
Qed.

Lemma handleSubmit_blank (trim : string -> string)
    (network : string -> FetchOutcome) (st : State) :
  trim (txId st) = "" -> handleSubmit trim network st = (st, inr tt).
Proof.
  intros Hb. unfold handleSubmit. now rewrite Hb.
Qed.

End SubmitFacts.

(** C5.  When the trimmed input is not empty the handler returns, no
    exception escaping it, with the loading flag down; if the request was
    rejected or its response is not ok, the result is null, whatever was
    shown before, and the error message is set; and a record is the
    result only if the response was ok and the record is its body. *)
Theorem failed_lookup_leaves_no_record (trim : string -> string)
    (network : string -> PredictPage.FetchOutcome) (st : PredictPage.State) :
  trim (PredictPage.txId st) <> "" ->
  let outcome := network (SubmitRules.url trim st) in
  let after := PredictPage.handleSubmit trim network st in
  snd after = inr tt
  /\ PredictPage.loading (fst after) = false
  /\ (SubmitRules.failed outcome ->
      PredictPage.result (fst after) = None
      /\ PredictPage.error (fst after) = PredictPage.not_found_message)
  /\ (forall d, PredictPage.result (fst after) = Some d ->
      SubmitRules.succeeded outcome d).
Proof.
  intros Hne. cbv zeta. rewrite (SubmitFacts.handleSubmit_outcome _ _ _ Hne).
  unfold SubmitRules.failed, SubmitRules.succeeded.
  assert (Hnone : forall o : PredictPage.FetchOutcome,
    let after := ({| PredictPage.txId := PredictPage.txId st;
                     PredictPage.result := None;
                     PredictPage.loading := false;
                     PredictPage.error := PredictPage.not_found_message |},
                  @inr PredictPage.Exn unit tt) in
    snd after = inr tt
    /\ PredictPage.loading (fst after) = false
    /\ (o = PredictPage.Rejected
        \/ (exists res, o = PredictPage.Resolved res /\ PredictPage.ok res = false) ->
        PredictPage.result (fst after) = None
        /\ PredictPage.error (fst after) = PredictPage.not_found_message)
    /\ (forall d, PredictPage.result (fst after) = Some d ->
        exists res, o = PredictPage.Resolved res /\ PredictPage.ok res = true
                    /\ PredictPage.body res = PredictPage.Parsed d)).
  { intros o. simpl. repeat split. intros d H. discriminate. }
  destruct (network (SubmitRules.url trim st)) as [|[[|] [|d|]]];
    try apply Hnone.
  - simpl. split; [reflexivity|]. split; [reflexivity|]. split.
    + intros [H|(res & H & Hok)]; [discriminate|].
      injection H as <-. discriminate.
    + intros d' H. injection H as <-. eexists. repeat split.
  - simpl. split; [reflexivity|]. split; [reflexivity|]. split.
    + intros [H|(res & H & Hok)]; [discriminate|].
      injection H as <-. discriminate.
    + intros d' H. discriminate.
Qed.

Lemma failed_lookup_leaves_no_record_witness :
  let st := SampleLookup.typed " not-a-real-id "
              (Some (SampleLookup.record None (Some (JS.Fin (2 # 5))))) in
  let after := PredictPage.handleSubmit SampleLookup.trim_spaces
                 SampleLookup.one_record_network st in
  snd after = inr tt
  /\ PredictPage.loading (fst after) = false
  /\ PredictPage.result (fst after) = None
  /\ PredictPage.error (fst after) = PredictPage.not_found_message.
Proof.
  cbv zeta.
  destruct (failed_lookup_leaves_no_record SampleLookup.trim_spaces
              SampleLookup.one_record_network
              (SampleLookup.typed " not-a-real-id "
                 (Some (SampleLookup.record None (Some (JS.Fin (2 # 5)))))))
    as (Hret & Hload & Hfail & _).
  - discriminate.
  - destruct Hfail as [Hres Herr].
    + right. eexists. split; reflexivity.
    + repeat split; assumption.
Defined.

(** ** The fused score *)

Module FusionFacts.

Import Fusion.

Lemma clamp_bounds (lo hi v : Q) :
  (lo <= hi)%Q -> (lo <= clamp lo hi v <= hi)%Q.
Proof.
  intros Hlh. unfold clamp.
  destruct (Qle_bool v lo) eqn:Hlo.
  - split; [apply Qle_refl | assumption].
  - destruct (Qle_bool hi v) eqn:Hhi.
    + split; [assumption | apply Qle_refl].
    + split.
      * destruct (Qlt_le_dec v lo) as [Hlt|Hge]; [|assumption].
        apply Qlt_le_weak, Qle_bool_iff in Hlt. congruence.
      * destruct (Qlt_le_dec v hi) as [Hlt|Hge]; [now apply Qlt_le_weak|].
        apply Qle_bool_iff in Hge. congruence.
Qed.

Lemma in_unit_iff (p : Q) : in_unit p = true <-> (0 <= p <= 1)%Q.
Proof.
  unfold in_unit. rewrite andb_true_iff, !Qle_bool_iff. reflexivity.
Qed.

End FusionFacts.

(** C3.  On every triple whose two probabilities lie in [0,1], whatever
    the anomaly score, the normalisation and the combination rule, [fuse]
    returns a result and its risk score lies in [0,100]. *)
Theorem fuse_score_in_range (normalize : Q -> Q) (combine : Q -> Q -> Q -> Q)
    (fraud_prob gnn_fraud_prob anomaly_score : Q) :
  (0 <= fraud_prob <= 1)%Q ->
  (0 <= gnn_fraud_prob <= 1)%Q ->
  exists r,
    Fusion.fuse normalize combine fraud_prob gnn_fraud_prob anomaly_score = inr r
    /\ (0 <= Fusion.risk_score r <= 100)%Q.
Proof.
  intros Hf Hg. apply FusionFacts.in_unit_iff in Hf, Hg.
  unfold Fusion.fuse. rewrite Hf, Hg. simpl.
  eexists. split; [reflexivity|]. simpl.
  apply FusionFacts.clamp_bounds. discriminate.
Qed.

Lemma fuse_score_in_range_witness :
  exists r,
    Fusion.fuse SampleFusion.minmax SampleFusion.weighted
      (92 # 100) (10 # 100) (-1 # 10) = inr r
    /\ (0 <= Fusion.risk_score r <= 100)%Q.
Proof.
  apply (fuse_score_in_range SampleFusion.minmax SampleFusion.weighted
           (92 # 100) (10 # 100) (-1 # 10)).
  - split; discriminate.
  - split; discriminate.
Defined.

(** ** The pages of the landing page *)

Module PageFacts.

Import Home.

Lemma totalPages_div (l : list RiskRow) :
  totalPages l = ((Z.of_nat (List.length l) + 9) / 10)%Z.
Proof.
  unfold totalPages, itemsPerPage, Qceiling, Qfloor. simpl.
  rewrite Z.mul_1_r. Z.div_mod_to_equations. lia.
Qed.

Lemma slice_window {A : Type} (l : list A) (a b : Z) :
  (0 <= a <= b)%Z ->
  JS.slice l a b = firstn (Z.to_nat (b - a)) (skipn (Z.to_nat a) l).
Proof.
  intros Hab. unfold JS.slice. cbv zeta.
  destruct (Z.ltb_spec a 0); [lia|]. destruct (Z.ltb_spec b 0); [lia|].
  set (len := Z.of_nat (List.length l)).
  destruct (Z.le_gt_cases len a) as [Hge|Hlt].
  - rewrite (skipn_all2 (n := Z.to_nat a)) by lia.
    rewrite (skipn_all2 (n := Z.to_nat (Z.min a len))) by lia.
    now rewrite !firstn_nil.
  - replace (Z.min a len) with a by lia.
    destruct (Z.le_gt_cases b len) as [Hb|Hb].
    + replace (Z.max (Z.min b len - a) 0) with (b - a)%Z by lia. reflexivity.
    + replace (Z.max (Z.min b len - a) 0) with (len - a)%Z by lia.
      rewrite !firstn_all2; [reflexivity | |]; rewrite length_skipn; lia.
Qed.

Lemma currentData_window (l : list RiskRow) (p : nat) :
  currentData l (Z.of_nat (S p)) = firstn 10 (skipn (10 * p) l).
Proof.
  unfold currentData, endIndex, startIndex, itemsPerPage.
  rewrite slice_window by lia.
  replace (Z.to_nat ((Z.of_nat (S p) - 1) * 10 + 10 - (Z.of_nat (S p) - 1) * 10))
    with 10%nat by lia.
  replace (Z.to_nat ((Z.of_nat (S p) - 1) * 10)) with (10 * p)%nat by lia.
  reflexivity.
Qed.

Lemma windows_concat {A : Type} (p : nat) :
  forall l : list A, (List.length l <= 10 * p)%nat ->
    List.concat (map (fun i => firstn 10 (skipn (10 * i) l)) (seq 0 p)) = l.
Proof.
  induction p as [|p IH]; intros l Hlen.
  - destruct l; [reflexivity | simpl in Hlen; lia].
  - rewrite <- cons_seq. cbn [map List.concat].
    rewrite <- seq_shift, map_map, Nat.mul_0_r. cbn [skipn].
    rewrite (map_ext _ (fun i => firstn 10 (skipn (10 * i) (skipn 10 l)))).
    + rewrite IH by (rewrite length_skipn; lia). apply firstn_skipn.
    + intros i. rewrite skipn_skipn. f_equal. f_equal. lia.
Qed.

Lemma currentData_length (l : list RiskRow) (currentPage : Z) :
  (1 <= currentPage)%Z ->
  List.length (currentData l currentPage)
  = Nat.min 10 (List.length l - 10 * Z.to_nat (currentPage - 1)).
Proof.
  intros Hp.
  replace currentPage with (Z.of_nat (S (Z.to_nat (currentPage - 1)))) at 1 by lia.
  rewrite currentData_window, length_firstn, length_skipn. reflexivity.
Qed.

Lemma totalPages_bounds (l : list RiskRow) :
  (10 * (totalPages l - 1) < Z.of_nat (List.length l) <= 10 * totalPages l)%Z.
Proof.
  rewrite totalPages_div. Z.div_mod_to_equations. lia.
Qed.

End PageFacts.

(** X1.  The pages 1 to [totalPages] cut the list of rows without loss and
    without overlap: shown one after the other they give the list back,
    every row once and in its order. *)
Theorem pages_partition (topRisk : list Home.RiskRow) :
  List.concat (map (fun p => Home.currentData topRisk (Z.of_nat p))
            (seq 1 (Z.to_nat (Home.totalPages topRisk))))
  = topRisk.
Proof.
  rewrite <- seq_shift, map_map.
  rewrite (map_ext _ (fun i => firstn 10 (skipn (10 * i) topRisk)))
    by (intros i; apply PageFacts.currentData_window).
  apply PageFacts.windows_concat.
  rewrite PageFacts.totalPages_div. Z.div_mod_to_equations. lia.
Qed.

(** X2.  A page between 1 and [totalPages] is never empty and holds at most
    10 rows, exactly 10 when it is not the last; a page after the last is
    empty. *)
Theorem page_sizes (topRisk : list Home.RiskRow) (currentPage : Z) :
  (1 <= currentPage)%Z ->
  ((currentPage <= Home.totalPages topRisk)%Z ->
     (1 <= List.length (Home.currentData topRisk currentPage) <= 10)%nat)
  /\ ((currentPage < Home.totalPages topRisk)%Z ->
      List.length (Home.currentData topRisk currentPage) = 10%nat)
  /\ ((Home.totalPages topRisk < currentPage)%Z ->
      Home.currentData topRisk currentPage = []).
Proof.
  intros Hp. pose proof (PageFacts.totalPages_bounds topRisk) as Hb.
  pose proof (PageFacts.currentData_length topRisk currentPage Hp) as Hlen.
  repeat split; try lia.
  intros Hlt. apply length_zero_iff_nil. lia.
Qed.

Lemma page_sizes_witness :
  (1 <= List.length (Home.currentData (SampleRows.rows 25) 3) <= 10)%nat
  /\ List.length (Home.currentData (SampleRows.rows 25) 2) = 10%nat
  /\ Home.currentData (SampleRows.rows 25) 4 = [].
Proof.
  split; [|split].
  - apply (proj1 (page_sizes (SampleRows.rows 25) 3 ltac:(lia))).
    now vm_compute.
  - apply (proj1 (proj2 (page_sizes (SampleRows.rows 25) 2 ltac:(lia)))).
    now vm_compute.
  - apply (proj2 (proj2 (page_sizes (SampleRows.rows 25) 4 ltac:(lia)))).
    now vm_compute.
Defined.

(** X3.  Whatever page is asked for, [goToPage] leaves the rows alone and
    lands on a page from 1 on; when there are rows it lands on a page up to
    [totalPages] and that page shows at least one row; a page asked for
    within 1 .. [totalPages] is the page it lands on. *)
Theorem goToPage_lands_on_rows (page : Z) (st : Home.State) :
  let st' := Home.goToPage page st in
  Home.topRisk st' = Home.topRisk st
  /\ (1 <= Home.currentPage st')%Z
  /\ (Home.topRisk st <> [] ->
      (Home.currentPage st' <= Home.totalPages (Home.topRisk st))%Z
      /\ Home.currentData (Home.topRisk st') (Home.currentPage st') <> [])
  /\ ((1 <= page <= Home.totalPages (Home.topRisk st))%Z ->
      Home.currentPage st' = page).
Proof.
  cbv zeta. unfold Home.goToPage. simpl.
  pose proof (PageFacts.totalPages_bounds (Home.topRisk st)) as Hb.
  split; [reflexivity|]. split; [lia|]. split.
  - intros Hne.
    assert (Hlen : (0 < List.length (Home.topRisk st))%nat).
    { destruct (Home.topRisk st); [congruence | simpl; lia]. }
    split; [lia|]. intros Hnil.
    apply (f_equal (@List.length _)) in Hnil.
    rewrite PageFacts.currentData_length in Hnil by lia.
    change (@List.length Home.RiskRow []) with 0%nat in Hnil. lia.
  - intros Hr. lia.
Qed.

Lemma goToPage_lands_on_rows_witness :
  Home.currentPage (Home.goToPage 2 (SampleRows.loaded 25 1)) = 2%Z
  /\ ((Home.currentPage (Home.goToPage (-4) (SampleRows.loaded 25 2))
       <= Home.totalPages (Home.topRisk (SampleRows.loaded 25 2)))%Z
      /\ Home.currentData
           (Home.topRisk (Home.goToPage (-4) (SampleRows.loaded 25 2)))
           (Home.currentPage (Home.goToPage (-4) (SampleRows.loaded 25 2)))
         <> []).
Proof.
  split.
  - apply (proj2 (proj2 (proj2 (goToPage_lands_on_rows 2 (SampleRows.loaded 25 1))))).
    now vm_compute.
  - apply (proj1 (proj2 (proj2 (goToPage_lands_on_rows (-4) (SampleRows.loaded 25 2))))).
    discriminate.
Defined.

(** ** The loader of the landing page *)

Module LoadFacts.

Import Home.

(** The state [loadTop] leaves, by the outcome of the request. *)
Lemma loadTop_outcome (outcome : FetchOutcome) (st : State) :
  loadTop outcome st
  = match outcome with
    | Resolved {| ok := true; body := Parsed data |} =>
        ({| topRisk := data; loading := false; error := "";
            searchId := searchId st; currentPage := currentPage st |}, inr tt)
    | _ =>
        ({| topRisk := topRisk st; loading := false;
            error := load_error_message;
            searchId := searchId st; currentPage := currentPage st |}, inr tt)
    end.
Proof.
  unfold loadTop, bind, modify, try_finally, try_catch, throw, ret.
  destruct outcome as [|[[|] [|data]]]; reflexivity.
Qed.

End LoadFacts.

(** X4.  [loadTop] always returns with the loading flag down, and the
    table is rendered after it exactly when the request resolved to an ok
    response whose body parsed, and then on the rows of that body; in every
    other case the rows are left as they were and the error is set. *)
Theorem loadTop_table_iff_loaded (outcome : Home.FetchOutcome) (st : Home.State) :
  let after := Home.loadTop outcome st in
  snd after = inr tt
  /\ Home.loading (fst after) = false
  /\ (Home.tableShown (fst after) = true <->
      exists data,
        outcome = Home.Resolved {| Home.ok := true; Home.body := Home.Parsed data |}
        /\ Home.topRisk (fst after) = data)
  /\ (Home.tableShown (fst after) = false ->
      Home.topRisk (fst after) = Home.topRisk st
      /\ Home.error (fst after) = Home.load_error_message).
Proof.
  cbv zeta. rewrite LoadFacts.loadTop_outcome.
  destruct outcome as [|[[|] [|data]]]; simpl;
    (split; [reflexivity|]); (split; [reflexivity|]);
    unfold Home.tableShown; simpl; split;
    try (intros _; split; reflexivity);
    try (split; [discriminate | intros (d & H & _); discriminate]).
  - split; [intros _; now exists data | reflexivity].
  - discriminate.
Qed.

Lemma loadTop_table_iff_loaded_witness :
  Home.topRisk (fst (Home.loadTop Home.Rejected (SampleRows.loaded 25 2)))
  = SampleRows.rows 25
  /\ Home.error (fst (Home.loadTop Home.Rejected (SampleRows.loaded 25 2)))
     = Home.load_error_message.
Proof.
  apply (proj2 (proj2 (proj2
           (loadTop_table_iff_loaded Home.Rejected (SampleRows.loaded 25 2))))).
  reflexivity.
Defined.

(** X5.  The identifier cell of a row shows the first 10 characters of the
    identifier, the whole of it when it has no more, and then three dots
    in either case: never more than 13 characters. *)
Theorem rowIdText_prefix_and_dots (row : Home.RiskRow) :
  Home.rowIdText row
  = (firstn 10 (Home.secure_id row) ++ JS.str_of "...")%list
  /\ (List.length (Home.rowIdText row) <= 13)%nat
  /\ ((List.length (Home.secure_id row) <= 10)%nat ->
      Home.rowIdText row = (Home.secure_id row ++ JS.str_of "...")%list).
Proof.
  assert (H : JS.substring (Home.secure_id row) 0 (Some 10%Z)
              = firstn 10 (Home.secure_id row)).
  { destruct (Nat.le_gt_cases 10 (List.length (Home.secure_id row))) as [Hl|Hl].
    - now rewrite TruncateFacts.substring_prefix by lia.
    - unfold JS.substring. cbv zeta.
      set (len := Z.of_nat (List.length (Home.secure_id row))).
      replace (Z.min (Z.max 0 0) len) with 0%Z by lia.
      replace (Z.min (Z.max 10 0) len) with len by lia.
      replace (Z.min 0 len) with 0%Z by lia.
      replace (Z.max 0 len) with len by lia.
      rewrite Z.sub_0_r. cbn [Z.to_nat skipn].
      rewrite !firstn_all2 by lia. reflexivity. }
  unfold Home.rowIdText. rewrite H. split; [reflexivity|]. split.
  - rewrite length_app, length_firstn.
    change (List.length (JS.str_of "...")) with 3%nat. lia.
  - intros Hl. now rewrite firstn_all2 by lia.
Qed.

Lemma rowIdText_prefix_and_dots_witness :
  Home.rowIdText
    {| Home.secure_id := JS.str_of "42"; Home.risk_score := JS.of_Z 90;
       Home.fraud_prob := JS.Fin (9 # 10); Home.gnn_fraud_prob := JS.Fin (8 # 10);
       Home.anomaly_score_norm := None; Home.anomaly_score := None;
       Home.alert := "Critical" |}
  = JS.str_of "42...".
Proof.
  apply (proj2 (proj2 (rowIdText_prefix_and_dots
           {| Home.secure_id := JS.str_of "42"; Home.risk_score := JS.of_Z 90;
              Home.fraud_prob := JS.Fin (9 # 10);
              Home.gnn_fraud_prob := JS.Fin (8 # 10);
              Home.anomaly_score_norm := None; Home.anomaly_score := None;
              Home.alert := "Critical" |}))).
  simpl. lia.
Defined.



(** X7.  What a lookup leaves depends on the input and on the answer
    alone: two states with the same input end in the same state, whatever
    result, error and loading flag they started from, and to submit again
    on the state a lookup left changes nothing while the back end answers
    the same. *)
Theorem submit_forgets_previous (trim : string -> string)
    (network : string -> PredictPage.FetchOutcome)
    (st st' : PredictPage.State) :
  trim (PredictPage.txId st) <> "" ->
  PredictPage.txId st' = PredictPage.txId st ->
  PredictPage.handleSubmit trim network st'
  = PredictPage.handleSubmit trim network st
  /\ PredictPage.handleSubmit trim network
       (fst (PredictPage.handleSubmit trim network st))
     = PredictPage.handleSubmit trim network st.
Proof.
  intros Hne Hid.
  assert (Hne' : trim (PredictPage.txId st') <> "") by now rewrite Hid.
  assert (Hkeep : PredictPage.txId (fst (PredictPage.handleSubmit trim network st))
                  = PredictPage.txId st).
  { rewrite (SubmitFacts.handleSubmit_outcome _ _ _ Hne).
    destruct (network (SubmitRules.url trim st)) as [|[[|] [|d|]]]; reflexivity. }
  assert (Hne2 : trim (PredictPage.txId
                         (fst (PredictPage.handleSubmit trim network st))) <> "")
    by now rewrite Hkeep.
  split.
  - rewrite (SubmitFacts.handleSubmit_outcome _ _ _ Hne),
      (SubmitFacts.handleSubmit_outcome _ _ _ Hne').
    unfold SubmitRules.url. now rewrite Hid.
  - rewrite (SubmitFacts.handleSubmit_outcome _ _ _ Hne2).
    unfold SubmitRules.url at 1. rewrite !Hkeep.
    rewrite (SubmitFacts.handleSubmit_outcome _ _ _ Hne).
    reflexivity.
Qed.

Lemma submit_forgets_previous_witness :
  PredictPage.handleSubmit SampleLookup.trim_spaces
    SampleLookup.one_record_network
    {| PredictPage.txId := "nope";
       PredictPage.result := Some (SampleLookup.record None None);
       PredictPage.loading := true; PredictPage.error := "stale" |}
  = PredictPage.handleSubmit SampleLookup.trim_spaces
      SampleLookup.one_record_network (SampleLookup.typed "nope" None).
Proof.
  apply (proj1 (submit_forgets_previous SampleLookup.trim_spaces
                  SampleLookup.one_record_network
                  (SampleLookup.typed "nope" None)
                  {| PredictPage.txId := "nope";
                     PredictPage.result := Some (SampleLookup.record None None);
                     PredictPage.loading := true; PredictPage.error := "stale" |}
                  ltac:(discriminate) eq_refl)).
Defined.

(** ** The upload handler *)

Module UploadFacts.

Import UploadPage.

(** The state [uploadCSV] leaves when a file is chosen, by the outcome of
    the request. *)
Lemma uploadCSV_outcome (network : string -> FetchOutcome) (st : State)
    (f : string) :
  file st = Some f ->
  uploadCSV network st
  = match network f with
    | Rejected => (setLoading true st, inl TypeError)
    | Resolved {| ok := _; body := Malformed |} =>
        (setLoading true st, inl SyntaxError)
    | Resolved {| ok := _; body := Parsed data |} =>
        ({| file := file st; result := Some data; loading := false |}, inr tt)
    end.
Proof.
  intros Hf. unfold uploadCSV. rewrite Hf.
  unfold bind, modify, throw, ret.
  destruct (network f) as [|[o [|data]]];
    unfold setLoading, setResult; simpl; rewrite ?Hf; reflexivity.
Qed.

End UploadFacts.

(** X8.  When a file is chosen and the request is rejected, or the body of
    the response does not parse, the exception leaves [uploadCSV]: the
    result is the one from before, the loading flag stays up and with it
    the upload button stays disabled. *)
Theorem upload_failure_stays_loading
    (network : string -> UploadPage.FetchOutcome) (st : UploadPage.State)
    (f : string) :
  UploadPage.file st = Some f ->
  (network f = UploadPage.Rejected
   \/ exists res, network f = UploadPage.Resolved res
                  /\ UploadPage.body res = UploadPage.Malformed) ->
  let after := UploadPage.uploadCSV network st in
  (exists e, snd after = inl e)
  /\ UploadPage.result (fst after) = UploadPage.result st
  /\ UploadPage.loading (fst after) = true
  /\ UploadPage.buttonDisabled (fst after) = true.
Proof.
  intros Hf Hfail. cbv zeta. rewrite (UploadFacts.uploadCSV_outcome _ _ _ Hf).
  destruct Hfail as [->|([o b] & -> & Hb)].
  - unfold UploadPage.buttonDisabled. simpl. rewrite Hf.
    repeat split. now eexists.
  - simpl in Hb. subst b. unfold UploadPage.buttonDisabled. simpl. rewrite Hf.
    repeat split. now eexists.
Qed.

Lemma upload_failure_stays_loading_witness :
  UploadPage.loading
    (fst (UploadPage.uploadCSV SampleUpload.down_network
            (SampleUpload.chosen "batch.csv"))) = true
  /\ UploadPage.buttonDisabled
       (fst (UploadPage.uploadCSV SampleUpload.down_network
               (SampleUpload.chosen "batch.csv"))) = true.
Proof.
  destruct (upload_failure_stays_loading SampleUpload.down_network
              (SampleUpload.chosen "batch.csv") "batch.csv" eq_refl
              (or_introl eq_refl)) as (_ & _ & Hl & Hb).
  split; assumption.
Defined.

(** X9.  [uploadCSV] does not look at the status of the response: when a
    file is chosen and the body parses, the handler returns, the loading
    flag is down and the body is the result, for a response that is not ok
    as for one that is. *)
Theorem upload_reads_any_status
    (network : string -> UploadPage.FetchOutcome) (st : UploadPage.State)
    (f : string) (res : UploadPage.Response) (data : UploadPage.Summary) :
  UploadPage.file st = Some f ->
  network f = UploadPage.Resolved res ->
  UploadPage.body res = UploadPage.Parsed data ->
  UploadPage.uploadCSV network st
  = ({| UploadPage.file := Some f; UploadPage.result := Some data;
        UploadPage.loading := false |}, inr tt).
Proof.
  intros Hf Hres Hbody. rewrite (UploadFacts.uploadCSV_outcome _ _ _ Hf), Hres.
  destruct res as [o b]. simpl in Hbody. subst b. now rewrite Hf.
Qed.

Lemma upload_reads_any_status_witness :
  UploadPage.uploadCSV SampleUpload.failing_network (SampleUpload.chosen "batch.csv")
  = ({| UploadPage.file := Some "batch.csv";
        UploadPage.result := Some SampleUpload.error_answer;
        UploadPage.loading := false |}, inr tt).
Proof.
  apply (upload_reads_any_status SampleUpload.failing_network
           (SampleUpload.chosen "batch.csv") "batch.csv"
           {| UploadPage.ok := false;
              UploadPage.body := UploadPage.Parsed SampleUpload.error_answer |}
           SampleUpload.error_answer eq_refl eq_refl eq_refl).
Defined.

(** ** What the two loops store *)

Module BuildFacts.

Import Graphology TxPage BuildRules.

Lemma node_step_eval (len : nat) (n : Node.t) (index : nat) (g : G) :
  (has <- gets (fun g => hasNode g (Node.id n)) ;;
   if negb has
   then addNode (Node.id n) (nodeAttributes len n index)
   else ret tt)%eff g
  = if hasNode g (Node.id n) then (g, inr tt)
    else ({| nodes := nodes g ++ [(Node.id n, nodeAttributes len n index)];
             edges := edges g |}, inr tt).
Proof.
  unfold bind, gets, addNode, ret, throw. simpl.
  destruct (hasNode g (Node.id n)) eqn:Hhas; simpl; [reflexivity|].
  now rewrite Hhas.
Qed.

Lemma edge_step_eval (e : Edge.t) (g : G) :
  (has <- gets (fun g => hasEdge g (Edge.source e) (Edge.target e)) ;;
   if negb has
   then addEdge (Edge.source e) (Edge.target e) (edgeAttributes e)
   else ret tt)%eff g
  = if hasEdge g (Edge.source e) (Edge.target e) then (g, inr tt)
    else if negb (hasNode g (Edge.source e)) then (g, inl NotFoundGraphError)
    else if negb (hasNode g (Edge.target e)) then (g, inl NotFoundGraphError)
    else ({| nodes := nodes g;
             edges := edges g ++ [(Edge.source e, Edge.target e, edgeAttributes e)] |},
          inr tt).
Proof.
  unfold bind, gets, addEdge, ret, throw. simpl.
  destruct (hasEdge g (Edge.source e) (Edge.target e)) eqn:Hhas; simpl;
    [reflexivity|].
  destruct (hasNode g (Edge.source e)); simpl; [|reflexivity].
  destruct (hasNode g (Edge.target e)); simpl; [|reflexivity].
  now rewrite Hhas.
Qed.

Lemma forEach_from_cons {S E A : Type} (f : A -> nat -> Eff S E unit)
    (index : nat) (a : A) (rest : list A) (st : S) :
  forEach_from f index (a :: rest) st
  = match f a index st with
    | (st', inr _) => forEach_from f (Datatypes.S index) rest st'
    | (st', inl e) => (st', inl e)
    end.
Proof. reflexivity. Qed.

(** The loop over the nodes, from any point of the response on. *)
Lemma addNodes_from_first (all : list Node.t) (len : nat) (l : list Node.t) :
  forall (pre : list Node.t) (g : G),
    all = (pre ++ l)%list ->
    (forall m, In m pre -> In (Node.id m) (nodeKeys g)) ->
    (forall key a, In (key, a) (nodes g) ->
       exists n i, first_at all key i n /\ a = nodeAttributes len n i) ->
    let r :=
      forEach_from
        (fun n index =>
           (has <- gets (fun g => hasNode g (Node.id n)) ;;
            if negb has
            then addNode (Node.id n) (nodeAttributes len n index)
            else ret tt)%eff)
        (List.length pre) l g in
    snd r = inr tt
    /\ (forall m, In m all -> In (Node.id m) (nodeKeys (fst r)))
    /\ (forall key a, In (key, a) (nodes (fst r)) ->
          exists n i, first_at all key i n /\ a = nodeAttributes len n i)
    /\ edges (fst r) = edges g.
Proof.
  induction l as [|n rest IH]; intros pre g Hall Hpre Hg; cbv zeta.
  - rewrite app_nil_r in Hall. subst pre. simpl. auto.
  - rewrite forEach_from_cons, node_step_eval.
    assert (Hall' : all = ((pre ++ [n]) ++ rest)%list)
      by now rewrite <- app_assoc.
    assert (Hlen : S (List.length pre) = List.length (pre ++ [n])%list)
      by (rewrite length_app; simpl; lia).
    destruct (hasNode g (Node.id n)) eqn:Hhas.
    + rewrite Hlen. apply (IH (pre ++ [n])%list g Hall'); [|assumption].
      intros m Hm. apply in_app_or in Hm. destruct Hm as [Hm|[<-|[]]].
      * now apply Hpre.
      * now apply GraphFacts.hasNode_In.
    + rewrite Hlen.
      set (g' := {| nodes := nodes g ++ [(Node.id n, nodeAttributes len n (List.length pre))];
                    edges := edges g |}).
      destruct (IH (pre ++ [n])%list g' Hall') as (H1 & H2 & H3 & H4).
      * intros m Hm. unfold nodeKeys, g'. simpl. rewrite map_app.
        apply in_or_app. apply in_app_or in Hm. destruct Hm as [Hm|[<-|[]]].
        -- left. now apply Hpre.
        -- right. now left.
      * intros key a Hin. unfold g' in Hin. simpl in Hin.
        apply in_app_or in Hin. destruct Hin as [Hin|[[= <- <-]|[]]].
        -- now apply Hg.
        -- exists n, (List.length pre). split; [|reflexivity].
           split; [|split].
           ++ rewrite Hall, nth_error_app2 by lia.
              now rewrite Nat.sub_diag.
           ++ reflexivity.
           ++ intros j m Hj Hm Heq.
              rewrite Hall, nth_error_app1 in Hm by assumption.
              apply nth_error_In, Hpre in Hm. rewrite Heq in Hm.
              apply GraphFacts.hasNode_In in Hm. congruence.
      * repeat split; assumption.
Qed.

Lemma addNodes_first (all : list Node.t) :
  snd (addNodes all empty) = inr tt
  /\ (forall m, In m all -> In (Node.id m) (nodeKeys (fst (addNodes all empty))))
  /\ (forall key a, In (key, a) (nodes (fst (addNodes all empty))) ->
       exists n i, first_at all key i n
                   /\ a = nodeAttributes (List.length all) n i)
  /\ edges (fst (addNodes all empty)) = [].
Proof.
  unfold addNodes, forEach.
  apply (addNodes_from_first all (List.length all) all [] empty).
  - reflexivity.
  - intros m [].
  - intros key a [].
Qed.

Lemma closed_ends (g : G) (e : Edge.t) :
  closed g ->
  hasEdge g (Edge.source e) (Edge.target e) = true ->
  In (Edge.source e) (nodeKeys g) /\ In (Edge.target e) (nodeKeys g).
Proof.
  intros Hc Hh. apply Hc. now apply GraphFacts.hasEdge_In.
Qed.

(** The loop over the edges, on a graph whose edges end in its nodes. *)
Lemma addEdges_from (es : list Edge.t) :
  forall (index : nat) (g : G),
    closed g ->
    let r :=
      forEach_from
        (fun e (_ : nat) =>
           (has <- gets (fun g => hasEdge g (Edge.source e) (Edge.target e)) ;;
            if negb has
            then addEdge (Edge.source e) (Edge.target e) (edgeAttributes e)
            else ret tt)%eff)
        index es g in
    nodes (fst r) = nodes g
    /\ (snd r = inr tt <->
        forall e, In e es ->
          In (Edge.source e) (nodeKeys g) /\ In (Edge.target e) (nodeKeys g))
    /\ (snd r = inr tt ->
        forall s t, In (s, t) (edgeEnds (fst r)) <->
          In (s, t) (edgeEnds g)
          \/ exists e, In e es /\ Edge.source e = s /\ Edge.target e = t).
Proof.
  induction es as [|e rest IH]; intros index g Hc; cbv zeta.
  - simpl. split; [reflexivity|]. split.
    + split; [intros _ e [] | reflexivity].
    + intros _ s t. split; [now left | intros [H|(e & [] & _)]; exact H].
  - rewrite forEach_from_cons, edge_step_eval.
    destruct (hasEdge g (Edge.source e) (Edge.target e)) eqn:Hh.
    + destruct (IH (S index) g Hc) as (Hn & Hiff & Hed).
      destruct (closed_ends g e Hc Hh) as [Hs Ht].
      split; [assumption|]. split.
      * rewrite Hiff. split.
        -- intros H e' [<-|He']; [now split | now apply H].
        -- intros H e' He'. apply H. now right.
      * intros Hok s t. rewrite (Hed Hok s t). split.
        -- intros [H|(e' & He' & Hst)]; [now left|].
           right. exists e'. split; [now right | assumption].
        -- intros [H|(e' & [<-|He'] & Hs' & Ht')]; [now left | |].
           ++ left. subst s t. now apply GraphFacts.hasEdge_In.
           ++ right. now exists e'.
    + destruct (hasNode g (Edge.source e)) eqn:Hs; cbn [negb].
      2:{ split; [reflexivity|]. split; [|discriminate].
          split; [discriminate|]. intros H.
          destruct (H e (or_introl eq_refl)) as [Hin _].
          apply GraphFacts.hasNode_In in Hin. congruence. }
      destruct (hasNode g (Edge.target e)) eqn:Ht; cbn [negb].
      2:{ split; [reflexivity|]. split; [|discriminate].
          split; [discriminate|]. intros H.
          destruct (H e (or_introl eq_refl)) as [_ Hin].
          apply GraphFacts.hasNode_In in Hin. congruence. }
      apply GraphFacts.hasNode_In in Hs, Ht.
      set (g' := {| nodes := nodes g;
                    edges := edges g ++ [(Edge.source e, Edge.target e, edgeAttributes e)] |}).
      assert (Hc' : closed g').
      { intros s t Hin. unfold edgeEnds, g' in Hin. simpl in Hin.
        rewrite map_app in Hin. apply in_app_or in Hin.
        destruct Hin as [Hin|[[= <- <-]|[]]]; [now apply Hc | now split]. }
      destruct (IH (S index) g' Hc') as (Hn & Hiff & Hed).
      split; [exact Hn|]. split.
      * rewrite Hiff. split.
        -- intros H e' [<-|He']; [now split | now apply H].
        -- intros H e' He'. apply H. now right.
      * intros Hok s t. rewrite (Hed Hok s t).
        unfold edgeEnds at 1, g'. simpl. rewrite map_app, in_app_iff. simpl.
        split.
        -- intros [[H|[[= <- <-]|[]]]|(e' & He' & Hst)].
           ++ now left.
           ++ right. exists e. split; [now left | now split].
           ++ right. exists e'. split; [now right | assumption].
        -- intros [H|(e' & [<-|He'] & Hs' & Ht')].
           ++ left. now left.
           ++ left. right. left. now subst.
           ++ right. now exists e'.
Qed.

Lemma buildGraph_split (all : list Node.t) (es : list Edge.t) :
  buildGraph all es empty = addEdges es (fst (addNodes all empty)).
Proof.
  destruct (addNodes_first all) as (Hok & _).
  unfold buildGraph, bind.
  destruct (addNodes all empty) as [g1 [e|[]]]; simpl in *;
    [discriminate | reflexivity].
Qed.

Lemma addNodes_closed (all : list Node.t) : closed (fst (addNodes all empty)).
Proof.
  destruct (addNodes_first all) as (_ & _ & _ & Hed).
  intros s t Hin. unfold edgeEnds in Hin. rewrite Hed in Hin. destruct Hin.
Qed.

Lemma addNodes_keys (all : list Node.t) (k : string) :
  In k (nodeKeys (fst (addNodes all empty))) <-> In k (map Node.id all).
Proof.
  destruct (addNodes_first all) as (_ & Hall & Hfirst & _). split.
  - intros Hin. unfold nodeKeys in Hin. apply in_map_iff in Hin.
    destruct Hin as ([k' a] & <- & Hin).
    destruct (Hfirst k' a Hin) as (n & i & (Hnth & Hid & _) & _).
    apply in_map_iff. exists n. split; [assumption|].
    now apply nth_error_In in Hnth.
  - intros Hin. apply in_map_iff in Hin. destruct Hin as (m & <- & Hm).
    now apply Hall.
Qed.

End BuildFacts.

(** X10.  The loop over the nodes never throws, and the keys of the built
    graph are the identifiers of the response, no more and no fewer, also
    when the loop over the edges throws afterwards. *)
Theorem built_nodes_are_response_ids
    (nodes : list TxPage.Node.t) (edges : list TxPage.Edge.t) (key : string) :
  snd (TxPage.addNodes nodes Graphology.empty) = inr tt
  /\ (In key (Graphology.nodeKeys
                (fst (TxPage.buildGraph nodes edges Graphology.empty)))
      <-> In key (map TxPage.Node.id nodes)).
Proof.
  split; [apply BuildFacts.addNodes_first|].
  rewrite BuildFacts.buildGraph_split. unfold Graphology.nodeKeys.
  rewrite LayoutFacts.addEdges_nodes. apply BuildFacts.addNodes_keys.
Qed.

(** X11.  When the response repeats an identifier, the first node with it
    wins: the attributes stored under a key are those computed for the
    first node of the response with that key, at the index of that node;
    the later ones, whatever their risk and flag, leave no trace. *)
Theorem first_node_wins
    (nodes : list TxPage.Node.t) (edges : list TxPage.Edge.t)
    (key : string) (a : TxPage.NodeAttrs.t) :
  In (key, a) (Graphology.nodes
                 (fst (TxPage.buildGraph nodes edges Graphology.empty))) ->
  exists n index,
    nth_error nodes index = Some n
    /\ TxPage.Node.id n = key
    /\ (forall j m, (j < index)%nat -> nth_error nodes j = Some m ->
          TxPage.Node.id m <> key)
    /\ a = TxPage.nodeAttributes (List.length nodes) n index.
Proof.
  rewrite BuildFacts.buildGraph_split, LayoutFacts.addEdges_nodes.
  intros Hin.
  destruct (BuildFacts.addNodes_first nodes) as (_ & _ & Hfirst & _).
  destruct (Hfirst key a Hin) as (n & i & (Hnth & Hid & Hbefore) & Ha).
  exists n, i. repeat split; assumption.
Qed.

Lemma first_node_wins_witness :
  let nodes := [SampleGraph.neighbor_node "n1" None JS.VNull;
                SampleGraph.neighbor_node "n1" (Some (JS.of_Z 90)) (JS.VBool true)] in
  exists n index,
    nth_error nodes index = Some n
    /\ TxPage.Node.id n = "n1"
    /\ (forall j m, (j < index)%nat -> nth_error nodes j = Some m ->
          TxPage.Node.id m <> "n1")
    /\ TxPage.nodeAttributes 2 (SampleGraph.neighbor_node "n1" None JS.VNull) 0
       = TxPage.nodeAttributes (List.length nodes) n index.
Proof.
  cbv zeta.
  apply (first_node_wins
           [SampleGraph.neighbor_node "n1" None JS.VNull;
            SampleGraph.neighbor_node "n1" (Some (JS.of_Z 90)) (JS.VBool true)]
           [] "n1"
           (TxPage.nodeAttributes 2 (SampleGraph.neighbor_node "n1" None JS.VNull) 0)).
  left. reflexivity.
Defined.

(** X13.  When the two loops return, the graph links a source to a target
    exactly when some edge of the response does: no pair of the response
    is lost and none is made up. *)
Theorem built_edges_are_response_pairs
    (nodes : list TxPage.Node.t) (edges : list TxPage.Edge.t)
    (source target : string) :
  snd (TxPage.buildGraph nodes edges Graphology.empty) = inr tt ->
  (In (source, target)
      (Graphology.edgeEnds (fst (TxPage.buildGraph nodes edges Graphology.empty)))
   <-> exists e, In e edges /\ TxPage.Edge.source e = source
                 /\ TxPage.Edge.target e = target).
Proof.
  rewrite BuildFacts.buildGraph_split. unfold TxPage.addEdges, forEach.
  destruct (BuildFacts.addEdges_from edges 0 _ (BuildFacts.addNodes_closed nodes))
    as (_ & _ & Hed).
  intros Hok. rewrite (Hed Hok source target).
  destruct (BuildFacts.addNodes_first nodes) as (_ & _ & _ & Hnone).
  unfold Graphology.edgeEnds at 1. rewrite Hnone. simpl. tauto.
Qed.

Lemma built_edges_are_response_pairs_witness :
  let nodes := [SampleGraph.center_node "tx";
                SampleGraph.neighbor_node "n1" None JS.VNull] in
  let edges := [SampleGraph.edge "tx" "n1" "outgoing";
                SampleGraph.edge "tx" "n1" "indirect"] in
  In ("tx", "n1")
     (Graphology.edgeEnds (fst (TxPage.buildGraph nodes edges Graphology.empty)))
  <-> exists e, In e edges /\ TxPage.Edge.source e = "tx"
                /\ TxPage.Edge.target e = "n1".
Proof.
  cbv zeta.
  apply (built_edges_are_response_pairs
           [SampleGraph.center_node "tx";
            SampleGraph.neighbor_node "n1" None JS.VNull]
           [SampleGraph.edge "tx" "n1" "outgoing";
            SampleGraph.edge "tx" "n1" "indirect"] "tx" "n1").
  reflexivity.
Defined.

(** X14.  The two colors of the legend can be read back: a node is purple
    exactly when its type is "center", and black exactly when it is flagged
    and not the center; no risk gives either color. *)
Theorem node_color_tells (n : TxPage.Node.t) (length index : nat) :
  (TxPage.NodeAttrs.color (TxPage.nodeAttributes length n index) = "#cc00ff"
   <-> TxPage.Node.type n = "center")
  /\ (TxPage.NodeAttrs.color (TxPage.nodeAttributes length n index) = "#000000"
      <-> TxPage.Node.type n <> "center" /\ ColorRules.flagged n).
Proof.
  unfold TxPage.nodeAttributes. simpl. unfold TxPage.getNodeColor.
  rewrite <- ColorFacts.isFlagged_flagged.
  destruct (String.eqb_spec (TxPage.Node.type n) "center") as [Hc|Hc].
  - split; split; try discriminate; try tauto.
  - destruct (TxPage.isFlagged n).
    + split; split; try discriminate; try tauto.
    + destruct (JS.ge _ (JS.of_Z 80));
        [split; split; try discriminate; try tauto; intros [_ H]; discriminate|].
      destruct (JS.ge _ (JS.of_Z 60));
        [split; split; try discriminate; try tauto; intros [_ H]; discriminate|].
      destruct (JS.ge _ (JS.of_Z 40));
        split; split; try discriminate; try tauto; intros [_ H]; discriminate.
Qed.

(** ** The requests of the transaction page *)

Module RequestFacts.

Import TxPage RequestRules.

Lemma step_up_to_date (i : string) (st : State) (ev : Event)
    (reqs : list Request) :
  i <> "" ->
  up_to_date i st reqs ->
  up_to_date i (fst (step (Some i) st ev)) (reqs ++ snd (step (Some i) st ev)).
Proof.
  intros Hi [earlier ->]. apply String.eqb_neq in Hi.
  destruct ev as [b|tx g|]; simpl.
  - destruct (Z.eqb_spec (clicked b) (graphDepth st)) as [Heq|Hne]; simpl.
    + rewrite app_nil_r. now exists earlier.
    + unfold fetchEffect. rewrite Hi. simpl.
      now exists (earlier ++ [GetTx i; GetGraph i (graphDepth st)])%list.
  - rewrite app_nil_r. now exists earlier.
  - rewrite app_nil_r. now exists earlier.
Qed.

Lemma run_up_to_date (i : string) (events : list Event) :
  i <> "" ->
  forall st reqs,
    up_to_date i st reqs ->
    up_to_date i (fst (run (Some i) st events))
      (reqs ++ snd (run (Some i) st events)).
Proof.
  intros Hi. induction events as [|ev rest IH]; intros st reqs Hup; simpl.
  - now rewrite app_nil_r.
  - pose proof (step_up_to_date i st ev reqs Hi Hup) as H1.
    destruct (step (Some i) st ev) as [st1 reqs1]. simpl in H1.
    pose proof (IH st1 _ H1) as H2.
    destruct (run (Some i) st1 rest) as [st2 reqs2]. simpl in *.
    now rewrite app_assoc.
Qed.

Lemma run_without_id (id : option string) (events : list Event) :
  id = None \/ id = Some "" ->
  forall st, snd (run id st events) = [].
Proof.
  intros Hid. induction events as [|ev rest IH]; intros st; simpl;
    [reflexivity|].
  assert (Hstep : snd (step id st ev) = []).
  { destruct ev as [b|tx g|]; simpl; try reflexivity.
    destruct (clicked b =? graphDepth st)%Z; [reflexivity|].
    unfold fetchEffect. destruct Hid as [->| ->]; reflexivity. }
  destruct (step id st ev) as [st1 reqs1]. simpl in Hstep. subst reqs1.
  specialize (IH st1). destruct (run id st1 rest) as [st2 reqs2].
  simpl in *. assumption.
Qed.

End RequestFacts.

(** X15.  With an identifier in the route, the last two requests of the
    page are always the transaction and the graph at the depth the state
    holds, so the depth button that is lit is the depth last asked for;
    without an identifier, or with the empty one, the page never sends a
    request. *)
Theorem latest_request_matches_depth (id : option string)
    (events : list TxPage.Event) :
  (forall i, id = Some i -> i <> "" ->
     exists earlier,
       snd (TxPage.session id events)
       = (earlier ++ [TxPage.GetTx i;
                      TxPage.GetGraph i
                        (TxPage.graphDepth (fst (TxPage.session id events)))])%list)
  /\ (id = None \/ id = Some "" -> snd (TxPage.session id events) = []).
Proof.
  split.
  - intros i -> Hi. unfold TxPage.session.
    assert (H0 : RequestRules.up_to_date i
                   (fst (TxPage.fetchEffect (Some i) TxPage.initial))
                   (snd (TxPage.fetchEffect (Some i) TxPage.initial))).
    { unfold TxPage.fetchEffect. apply String.eqb_neq in Hi. rewrite Hi.
      now exists []. }
    destruct (TxPage.fetchEffect (Some i) TxPage.initial) as [st0 reqs0].
    simpl in H0.
    pose proof (RequestFacts.run_up_to_date i events Hi st0 reqs0 H0) as H1.
    destruct (TxPage.run (Some i) st0 events) as [st reqs]. exact H1.
  - intros Hid. unfold TxPage.session.
    assert (H0 : snd (TxPage.fetchEffect id TxPage.initial) = [])
      by (unfold TxPage.fetchEffect; destruct Hid as [->| ->]; reflexivity).
    destruct (TxPage.fetchEffect id TxPage.initial) as [st0 reqs0].
    simpl in H0. subst reqs0.
    pose proof (RequestFacts.run_without_id id events Hid st0) as H1.
    destruct (TxPage.run id st0 events) as [st reqs]. simpl in *. assumption.
Qed.

Lemma latest_request_matches_depth_witness :
  (exists earlier,
     snd (TxPage.session (Some "a3f1") [TxPage.Click TxPage.Hop3; TxPage.Failed])
     = (earlier ++ [TxPage.GetTx "a3f1"; TxPage.GetGraph "a3f1" 3])%list)
  /\ snd (TxPage.session None [TxPage.Click TxPage.Hop2]) = [].
Proof.
  split.
  - apply (proj1 (latest_request_matches_depth (Some "a3f1")
                    [TxPage.Click TxPage.Hop3; TxPage.Failed]) "a3f1" eq_refl).
    discriminate.
  - apply (proj2 (latest_request_matches_depth None [TxPage.Click TxPage.Hop2])).
    left. reflexivity.
Defined.

(** X16.  What [getTruncatedId] shows has the length of the identifier up
    to 16 characters and 19 characters beyond, so it is never longer than
    19, and it is longer than the identifier itself exactly for the
    identifiers of 17 and 18 characters. *)
Theorem truncated_length (s : JS.str) :
  List.length (PredictPage.getTruncatedId s)
  = (if (List.length s <=? 16)%nat then List.length s else 19%nat)
  /\ ((List.length s < List.length (PredictPage.getTruncatedId s))%nat
      <-> List.length s = 17%nat \/ List.length s = 18%nat).
Proof.
  rewrite TruncateFacts.getTruncatedId_truncated.
  destruct (Nat.leb_spec (List.length s) 16) as [Hle|Hgt].
  - unfold TruncateRules.truncated.
    destruct (Nat.leb_spec (List.length s) 16); [|lia].
    split; [reflexivity | lia].
  - rewrite TruncateFacts.truncated_long_length by assumption.
    split; [reflexivity | lia].
Qed.

(** X17.  When a record holds at most one of the two anomaly values, the
    two pages pick the same one, and the dash when there is none; the
    transaction page then prints what the predict page prints unless the
    value picked is falsy. *)
Theorem anomaly_pages_agree (r : PredictPage.TxResult) :
  PredictPage.anomaly_score r = None \/ PredictPage.anomaly_score_norm r = None ->
  PredictPage.anomalyText r
  = match TxPage.anomaly (Some r) with
    | Some v => JS.ToFixed v 3
    | None => JS.Literal "—"
    end
  /\ ((forall v, TxPage.anomaly (Some r) = Some v -> JS.truthy v = true) ->
      TxPage.anomalyText (Some r) = PredictPage.anomalyText r).
Proof.
  intros Hone. unfold PredictPage.anomalyText, TxPage.anomalyText, TxPage.anomaly.
  destruct (PredictPage.anomaly_score r) as [raw|],
    (PredictPage.anomaly_score_norm r) as [norm|]; simpl;
    try (destruct Hone; discriminate).
  - split; [reflexivity|]. intros H. now rewrite (H raw eq_refl).
  - split; [reflexivity|]. intros H. now rewrite (H norm eq_refl).
  - split; reflexivity.
Qed.

Lemma anomaly_pages_agree_witness :
  TxPage.anomalyText (Some (SampleLookup.record None (Some (JS.Fin (2 # 5)))))
  = PredictPage.anomalyText (SampleLookup.record None (Some (JS.Fin (2 # 5)))).
Proof.
  apply (proj2 (anomaly_pages_agree
                  (SampleLookup.record None (Some (JS.Fin (2 # 5))))
                  (or_introl eq_refl))).
  intros v [= <-]. reflexivity.
Defined.

(** X18.  The two pages print the same percentage for a probability
    exactly when the probability is truthy: for a probability of 0 the
    transaction page prints the dash where the predict page prints the
    percentage. *)
Theorem probability_cards_agree_iff_truthy (r : PredictPage.TxResult) :
  (TxPage.fraudText r = PredictPage.fraudText r
   <-> JS.truthy (PredictPage.fraud_prob r) = true)
  /\ (TxPage.gnnText r = PredictPage.gnnText r
      <-> JS.truthy (PredictPage.gnn_fraud_prob r) = true)
  /\ (forall q, PredictPage.fraud_prob r = JS.Fin q -> (q == 0)%Q ->
        TxPage.fraudText r = JS.NoPercent)
  /\ (forall q, PredictPage.gnn_fraud_prob r = JS.Fin q -> (q == 0)%Q ->
        TxPage.gnnText r = JS.NoPercent).
Proof.
  unfold TxPage.fraudText, TxPage.gnnText, PredictPage.fraudText,
    PredictPage.gnnText.
  repeat split.
  - destruct (JS.truthy (PredictPage.fraud_prob r)); [reflexivity | discriminate].
  - intros ->. reflexivity.
  - destruct (JS.truthy (PredictPage.gnn_fraud_prob r)); [reflexivity | discriminate].
  - intros ->. reflexivity.
  - intros q -> Hq. simpl. apply Qeq_bool_iff in Hq. now rewrite Hq.
  - intros q -> Hq. simpl. apply Qeq_bool_iff in Hq. now rewrite Hq.
Qed.

Lemma probability_cards_agree_iff_truthy_witness :
  TxPage.fraudText
    {| PredictPage.secure_id := "a3f1"; PredictPage.fraud_prob := JS.of_Z 0;
       PredictPage.gnn_fraud_prob := JS.Fin (1 # 10);
       PredictPage.anomaly_score := None; PredictPage.anomaly_score_norm := None;
       PredictPage.risk_score := JS.of_Z 5; PredictPage.alert := "Low" |}
  = JS.NoPercent.
Proof.
  apply (proj1 (proj2 (proj2 (probability_cards_agree_iff_truthy
           {| PredictPage.secure_id := "a3f1"; PredictPage.fraud_prob := JS.of_Z 0;
              PredictPage.gnn_fraud_prob := JS.Fin (1 # 10);
              PredictPage.anomaly_score := None;
              PredictPage.anomaly_score_norm := None;
              PredictPage.risk_score := JS.of_Z 5;
              PredictPage.alert := "Low" |}))) (inject_Z 0) eq_refl).
  reflexivity.
Defined.

(** ** Where a node starts, in doubles *)

Module DoubleFacts.

Import DoubleRules.

Section Arithmetic.

Variable round : Q -> number.
Variables Math_cos Math_sin : number -> number.
Hypothesis round_ok : rounds_to_nearest round.
Hypothesis cos_ok : finite_on_finite Math_cos.
Hypothesis sin_ok : finite_on_finite Math_sin.

Lemma round_within (q : Q) (k : nat) :
  (k <= 1023)%nat -> Qabs q <= inject_Z (2 ^ Z.of_nat k) ->
  exists q', round q = JS.Fin q' /\ Qabs q' <= inject_Z (2 ^ Z.of_nat k).
Proof. apply (proj2 round_ok). Qed.

(** The angle of a node of the response is finite, and at most 8. *)
Lemma angle_finite (index length : nat) :
  (index < length)%nat ->
  exists q, JS.angle round index length = JS.Fin q.
Proof.
  intros Hlt. unfold JS.angle, JS.div, JS.of_nat, JS.of_Z.
  assert (Hpos : 0 < inject_Z (Z.of_nat length)).
  { change 0 with (inject_Z 0). rewrite <- Zlt_Qlt. lia. }
  destruct (Qeq_bool (inject_Z (Z.of_nat length)) 0) eqn:Hz.
  { apply Qeq_bool_iff in Hz. rewrite Hz in Hpos.
    exfalso. now apply (Qlt_irrefl 0). }
  destruct (round_within (inject_Z (Z.of_nat index) / inject_Z (Z.of_nat length)) 0)
    as (q1 & -> & H1); [lia | |].
  { rewrite Qabs_pos.
    - apply Qle_shift_div_r; [assumption|]. rewrite Qmult_1_l.
      rewrite <- Zle_Qle. lia.
    - apply Qle_shift_div_l; [assumption|]. rewrite Qmult_0_l.
      change 0 with (inject_Z 0). rewrite <- Zle_Qle. lia. }
  cbn [JS.mul].
  destruct (round_within (q1 * inject_Z 2) 1) as (q2 & -> & H2); [lia | |].
  { rewrite Qabs_Qmult.
    change (Qabs (inject_Z 2)) with (inject_Z 2).
    change (inject_Z (2 ^ Z.of_nat 1)) with (inject_Z 2).
    change (inject_Z (2 ^ Z.of_nat 0)) with 1 in H1.
    pose proof (Qabs_nonneg q1) as Hn.
    assert (H2' : 0 <= inject_Z 2) by discriminate.
    setoid_replace (inject_Z 2) with (1 * inject_Z 2) at 2 by ring.
    apply Qmult_le_compat_r; assumption. }
  unfold JS.Math_PI. cbn [JS.mul].
  destruct (round_within (q2 * (884279719003555 # 281474976710656)) 3)
    as (q3 & -> & H3); [lia | | now exists q3].
  rewrite Qabs_Qmult.
  change (Qabs (884279719003555 # 281474976710656))
    with (884279719003555 # 281474976710656).
  change (inject_Z (2 ^ Z.of_nat 3)) with (inject_Z 8).
  change (inject_Z (2 ^ Z.of_nat 1)) with (inject_Z 2) in H2.
  pose proof (Qabs_nonneg q2) as Hn.
  apply Qle_trans with (inject_Z 2 * 4).
  - apply Qmult_le_compat_nonneg; split;
      [assumption | assumption | discriminate | discriminate].
  - discriminate.
Qed.

(** A finite number times the radius 0 is a zero. *)
Lemma times_zero (f : number -> number) (index length : nat) :
  finite_on_finite f ->
  (index < length)%nat ->
  is_zero (JS.mul round (f (JS.angle round index length)) (JS.of_Z 0)).
Proof.
  intros Hf Hlt. destruct (angle_finite index length Hlt) as (q & ->).
  destruct (Hf q) as (c & ->). unfold JS.of_Z. cbn [JS.mul].
  apply (proj1 round_ok). change (inject_Z 0) with 0. ring.
Qed.

End Arithmetic.

Lemma exact_rounds : rounds_to_nearest SamplePage.exact.
Proof.
  split.
  - intros q Hq. now exists q.
  - intros q k _ Hq. now exists q.
Qed.

Lemma cosine_finite : finite_on_finite SamplePage.cosine.
Proof. intros q. simpl. now eexists. Qed.

Lemma sine_finite : finite_on_finite SamplePage.sine.
Proof. intros q. simpl. now eexists. Qed.

End DoubleFacts.

(** ** The render effect *)

Module EffectFacts.

Import Graphology TxPage.

Lemma buildGraph_ok_iff (nodes : list Node.t) (edges : list Edge.t) :
  snd (buildGraph nodes edges empty) = inr tt
  <-> forall e, In e edges ->
        In (Edge.source e) (map Node.id nodes)
        /\ In (Edge.target e) (map Node.id nodes).
Proof.
  rewrite BuildFacts.buildGraph_split. unfold addEdges, forEach.
  destruct (BuildFacts.addEdges_from edges 0 _ (BuildFacts.addNodes_closed nodes))
    as (_ & Hiff & _).
  rewrite Hiff. split; intros H e He; destruct (H e He) as [Hs Ht];
    split; now apply BuildFacts.addNodes_keys.
Qed.

(** The effect past its early returns, by the outcome of the two loops. *)
Lemma renderGraph_cases (forceAtlas2_assign : G -> option G)
    (nodes : list Node.t) (edges : list Edge.t) :
  renderGraph forceAtlas2_assign nodes edges
  = match buildGraph nodes edges empty with
    | (g, inl e) => (g, inl e)
    | (g, inr _) =>
        if (1 <? order g)%nat
        then match forceAtlas2_assign g with
             | Some g' => (g', inr tt)
             | None => (g, inr tt)
             end
        else (g, inr tt)
    end.
Proof.
  unfold renderGraph, bind, applyLayout.
  destruct (buildGraph nodes edges empty) as [g [e|[]]]; reflexivity.
Qed.

Lemma renderGraph_ok_iff (forceAtlas2_assign : G -> option G)
    (nodes : list Node.t) (edges : list Edge.t) :
  snd (renderGraph forceAtlas2_assign nodes edges) = inr tt
  <-> snd (buildGraph nodes edges empty) = inr tt.
Proof.
  rewrite renderGraph_cases.
  destruct (buildGraph nodes edges empty) as [g [e|[]]]; simpl.
  - reflexivity.
  - destruct (1 <? order g)%nat; [|tauto].
    destruct (forceAtlas2_assign g); simpl; tauto.
Qed.

Lemma renderEffect_runs (forceAtlas2_assign : G -> option G) (st : State) :
  graph st <> None -> containerRendered st = true ->
  renderEffect forceAtlas2_assign st
  = Some (renderGraph forceAtlas2_assign (nodesOf (graph st)) (edgesOf (graph st))).
Proof.
  intros Hg Hc. unfold renderEffect. rewrite Hc.
  destruct (graph st); [reflexivity | congruence].
Qed.

Lemma renderEffect_returns (forceAtlas2_assign : G -> option G) (st : State) :
  renderEffect forceAtlas2_assign st = None
  <-> graph st = None \/ containerRendered st = false.
Proof.
  unfold renderEffect. destruct (graph st) as [data|].
  - destruct (containerRendered st).
    + split; [discriminate | intros [H|H]; discriminate].
    + split; [intros _; now right | reflexivity].
  - split; [now left | reflexivity].
Qed.

(** A response without a node leaves the container out of the page. *)
Lemma no_node_no_container (st : State) :
  nodesOf (graph st) = [] -> containerRendered st = false.
Proof.
  intros Hn. unfold containerRendered. rewrite Hn. simpl.
  now rewrite !andb_false_r.
Qed.

End EffectFacts.




(** X12.  When [graph] is unset or the container is not in the page, as
    for every response without a node, the render effect builds nothing
    and throws nothing.  When it runs, it comes to its end without an
    exception exactly when every edge of the response has its source and
    its target among the identifiers of the nodes. *)
Theorem render_effect_completes_iff_ends_are_nodes
    (forceAtlas2_assign : TxPage.G -> option TxPage.G) (st : TxPage.State) :
  (TxPage.graph st = None \/ TxPage.containerRendered st = false
   \/ TxPage.nodesOf (TxPage.graph st) = [] ->
   TxPage.renderEffect forceAtlas2_assign st = None)
  /\ (TxPage.graph st <> None -> TxPage.containerRendered st = true ->
      exists r,
        TxPage.renderEffect forceAtlas2_assign st = Some r
        /\ (snd r = inr tt
            <-> forall e, In e (TxPage.edgesOf (TxPage.graph st)) ->
                  In (TxPage.Edge.source e)
                     (map TxPage.Node.id (TxPage.nodesOf (TxPage.graph st)))
                  /\ In (TxPage.Edge.target e)
                        (map TxPage.Node.id (TxPage.nodesOf (TxPage.graph st))))).
Proof.
  split.
  - intros H. apply EffectFacts.renderEffect_returns.
    destruct H as [H|[H|H]]; [now left | now right |].
    right. now apply EffectFacts.no_node_no_container.
  - intros Hg Hc. eexists. split.
    + now apply EffectFacts.renderEffect_runs.
    + rewrite EffectFacts.renderGraph_ok_iff.
      apply EffectFacts.buildGraph_ok_iff.
Qed.

Lemma render_effect_completes_iff_ends_are_nodes_witness :
  TxPage.renderEffect SampleGraph.to_one_one
    (SamplePage.shown [] [SampleGraph.edge "a" "b" "outgoing"]) = None
  /\ exists r,
       TxPage.renderEffect SampleGraph.to_one_one
         (SamplePage.shown [SampleGraph.center_node "tx"]
            [SampleGraph.edge "tx" "n1" "outgoing"]) = Some r
       /\ snd r <> inr tt.
Proof.
  split.
  - apply (proj1 (render_effect_completes_iff_ends_are_nodes
                    SampleGraph.to_one_one
                    (SamplePage.shown [] [SampleGraph.edge "a" "b" "outgoing"]))).
    right. right. reflexivity.
  - destruct (proj2 (render_effect_completes_iff_ends_are_nodes
                       SampleGraph.to_one_one
                       (SamplePage.shown [SampleGraph.center_node "tx"]
                          [SampleGraph.edge "tx" "n1" "outgoing"]))
                ltac:(discriminate) eq_refl) as (r & Hr & Hiff).
    exists r. split; [assumption|]. intros Hok.
    destruct (proj1 Hiff Hok (SampleGraph.edge "tx" "n1" "outgoing")
                (or_introl eq_refl)) as [_ [H|[]]].
    discriminate.
Defined.
